(** * A shallow embedding of the Universal Data Analyst Agent (analyzer.py, app.py,
    tools/get_relevant_data.py, tools/scrape_website.py).

    Python strings are modelled as Rocq [string]s (byte strings; the emoji of the
    source's messages are kept as their UTF-8 bytes).  Python exceptions are values
    of [exc], and a computation that may raise returns [res A].  Everything the
    repository does not implement itself (the Python interpreter running generated
    code, the operating system, the language-model backend, BeautifulSoup, pandas,
    Playwright) is an oracle: a field of a record that a theorem quantifies over. *)

From Stdlib Require Import String Ascii List Bool Arith Lia ZArith.
Import ListNotations.
Open Scope string_scope.
Set Warnings "-register-all".

(** ** Python exceptions *)

Inductive exc_class :=
| SystemExit | KeyboardInterrupt | GeneratorExit          (* BaseException only *)
| TimeoutExpired                                          (* subprocess.TimeoutExpired *)
| StopCandidateException
| OSError | FileNotFoundError | UnicodeError
| TypeError | ValueError | NameError | AttributeError | RuntimeError
| PlaywrightError.

(** [except Exception] catches exactly the classes below [Exception]. *)
Definition is_Exception (c : exc_class) : bool :=
  match c with
  | SystemExit | KeyboardInterrupt | GeneratorExit => false
  | _ => true
  end.

Record exc := mkExc { cls : exc_class; emsg : string }.

Inductive res (A : Type) :=
| Ret (a : A)
| Raise (e : exc).
Arguments Ret {A} a.
Arguments Raise {A} e.

Definition res_bind {A B} (m : res A) (f : A -> res B) : res B :=
  match m with Ret a => f a | Raise e => Raise e end.

Notation "'let!' x := m 'in' k" := (res_bind m (fun x => k))
  (at level 200, x name, m at level 100, k at level 200).

(** ** String helpers (Python [in], [str.strip], slicing) *)

Definition nl : string := String (ascii_of_nat 10) EmptyString.

Fixpoint starts_with (p s : string) : bool :=
  match p, s with
  | EmptyString, _ => true
  | String c p', String d s' => Ascii.eqb c d && starts_with p' s'
  | String _ _, EmptyString => false
  end.

(** [contains p s] is Python's [p in s]. *)
Fixpoint contains (p s : string) : bool :=
  starts_with p s ||
  match s with
  | EmptyString => false
  | String _ s' => contains p s'
  end.

Fixpoint drop (n : nat) (s : string) : string :=
  match n, s with
  | 0, _ => s
  | S n', String _ s' => drop n' s'
  | S _, EmptyString => EmptyString
  end.

(** The characters of the ASCII range for which [str.isspace] holds. *)
Definition is_space (c : ascii) : bool :=
  let n := nat_of_ascii c in
  (((9 <=? n) && (n <=? 13)) || ((28 <=? n) && (n <=? 32)))%nat.

Fixpoint lstrip (s : string) : string :=
  match s with
  | String c s' => if is_space c then lstrip s' else s
  | EmptyString => EmptyString
  end.

Definition string_rev (s : string) : string :=
  string_of_list_ascii (rev (list_ascii_of_string s)).

(** [str.strip()] *)
Definition strip (s : string) : string :=
  string_rev (lstrip (string_rev (lstrip s))).

Definition lower_ascii (c : ascii) : ascii :=
  let n := nat_of_ascii c in
  if ((65 <=? n) && (n <=? 90))%nat then ascii_of_nat (n + 32)%nat else c.

(** [str.lower()] on the ASCII range. *)
Fixpoint lower (s : string) : string :=
  match s with
  | EmptyString => EmptyString
  | String c s' => String (lower_ascii c) (lower s')
  end.

Fixpoint string_of_nat_aux (fuel n : nat) (acc : string) : string :=
  match fuel with
  | 0 => acc
  | S f =>
      let acc' := String (ascii_of_nat (48 + n mod 10)%nat) acc in
      if (n <? 10)%nat then acc' else string_of_nat_aux f (n / 10)%nat acc'
  end.

(** [str(n)] for a natural number. *)
Definition string_of_nat (n : nat) : string := string_of_nat_aux (S n) n EmptyString.

(** ** Output blocks: the [{"type": ..., "output": ...}] dictionaries *)

Record block := mkBlock { btype : string; boutput : string }.

Definition text_block (s : string) : block := mkBlock "text" s.
Definition image_block (s : string) : block := mkBlock "image" s.

(** ** The code extractor of [analyze] (analyzer.py, lines 185-194) *)

Definition fence_open : string := "```python".
Definition fence_close : string := "```".

(** The lazy group [(.*?)] followed by the closing fence: the text before the
    first occurrence of the closing fence, if there is one. *)
Fixpoint lazy_close (s : string) : option string :=
  if starts_with fence_close s then Some EmptyString
  else match s with
       | EmptyString => None
       | String c s' => option_map (String c) (lazy_close s')
       end.

(** [re.search(r"```python(.*?)```", s, re.DOTALL)], returning [group(1)]: the
    start positions are tried from left to right. *)
Fixpoint search_python_fence (s : string) : option string :=
  match (if starts_with fence_open s then lazy_close (drop 9%nat s) else None) with
  | Some body => Some body
  | None =>
      match s with
      | EmptyString => None
      | String _ s' => search_python_fence s'
      end
  end.

(** The program [analyze] hands to [run_code_and_capture_output], if any.
    [text_attr] is [None] when the response has no [text] attribute; otherwise
    it carries [response.text or ""]. *)
Definition select_code (text_attr : option string) : option string :=
  match text_attr with
  | None => None
  | Some full_text =>
      match search_python_fence full_text with
      | Some body => Some (strip body)
      | None =>
          if contains "import" full_text || contains "def " full_text
          then Some (strip full_text)
          else None
      end
  end.

Definition no_code_payload : list block :=
  [text_block "🤷 No usable code returned by Gemini."].

(** The spec's wording of the fallback test, for comparison with [select_code]:
    some whitespace-separated word of the response is the keyword [import] or
    [def]. *)
Fixpoint split_ws (s : string) (cur : list ascii) : list string :=
  match s with
  | EmptyString =>
      match cur with [] => [] | _ => [string_of_list_ascii (rev cur)] end
  | String c s' =>
      if is_space c then
        match cur with
        | [] => split_ws s' []
        | _ => string_of_list_ascii (rev cur) :: split_ws s' []
        end
      else split_ws s' (c :: cur)
  end.

Definition spec_has_keyword (t : string) : bool :=
  existsb (fun w => String.eqb w "import" || String.eqb w "def") (split_ws t []).

(** ** Python values and the JSON encoder of app.py *)

(** Python objects reaching [json.dumps].  A float is represented by its
    [repr] (shortest round-trip text), which determines it; [NpFloating r] is a
    numpy floating scalar whose [float(...)] has repr [r]. *)
Inductive pyval :=
| PNone
| PBool (b : bool)
| PInt (z : Z)
| PFloat (r : string)
| PStr (s : string)
| PList (l : list pyval)
| PDict (kv : list (string * pyval))
| NpInteger (z : Z)
| NpFloating (r : string)
| NpNdarray (l : list pyval)
| PObject (o : string).

Inductive json :=
| JNull
| JBool (b : bool)
| JInt (z : Z)
| JFloat (r : string)
| JStr (s : string)
| JArr (l : list json)
| JObj (kv : list (string * json)).

(** [ndarray.tolist()]: numpy scalars become Python scalars, nested arrays
    become nested lists, other elements (object arrays) are kept. *)
Fixpoint tolist_item (v : pyval) : pyval :=
  match v with
  | NpInteger z => PInt z
  | NpFloating r => PFloat r
  | NpNdarray l => PList (map tolist_item l)
  | _ => v
  end.

Section JsonDefault.
(** [str_repr] is Python's [str] on objects other than [str] instances. *)
Variable str_repr : pyval -> string.

Definition py_str (v : pyval) : string :=
  match v with
  | PStr s => s
  | _ => str_repr v
  end.

(** [_json_default] (app.py, lines 28-36). *)
Definition json_default (obj : pyval) : pyval :=
  match obj with
  | NpInteger z => PInt z
  | NpFloating r => PFloat r
  | NpNdarray l => PList (map tolist_item l)
  | _ => PStr (py_str obj)
  end.
End JsonDefault.

Fixpoint opt_traverse {A B} (f : A -> option B) (l : list A) : option (list B) :=
  match l with
  | [] => Some []
  | x :: l' =>
      match f x, opt_traverse f l' with
      | Some y, Some l'' => Some (y :: l'')
      | _, _ => None
      end
  end.

(** The encoder of [json.dumps(obj, default=default)]: JSON-native values are
    encoded directly, anything else is replaced by [default(obj)] and encoded
    again.  [fuel] is the interpreter's recursion limit: running out of it is
    the encoder's [RecursionError]. *)
Fixpoint encode (default : pyval -> pyval) (fuel : nat) (v : pyval) : option json :=
  match fuel with
  | 0 => None
  | S n =>
      match v with
      | PNone => Some JNull
      | PBool b => Some (JBool b)
      | PInt z => Some (JInt z)
      | PFloat r => Some (JFloat r)
      | PStr s => Some (JStr s)
      | PList l => option_map JArr (opt_traverse (encode default n) l)
      | PDict kv =>
          option_map JObj
            (opt_traverse (fun '(k, x) => option_map (pair k) (encode default n x)) kv)
      | _ => encode default n (default v)
      end
  end.

Definition recursion_limit : nat := 1000.

(** [json.dumps(obj, default=_json_default)] as app.py calls it. *)
Definition json_dumps (str_repr : pyval -> string) (v : pyval) : option json :=
  encode (json_default str_repr) recursion_limit v.



Definition block_to_py (b : block) : pyval :=
  PDict [("type", PStr (btype b)); ("output", PStr (boutput b))].

Definition payload_to_py (bs : list block) : pyval := PList (map block_to_py bs).

Definition block_to_json (b : block) : json :=
  JObj [("type", JStr (btype b)); ("output", JStr (boutput b))].

(** ** [base64.b64encode(data).decode("utf-8")] *)

Definition b64_alphabet : string :=
  "ABCDEFGHIJKLMNOPQRSTUVWXYZabcdefghijklmnopqrstuvwxyz0123456789+/".

Definition b64_digit (n : nat) : string :=
  match String.get n b64_alphabet with
  | Some c => String c EmptyString
  | None => EmptyString
  end.

Fixpoint b64_groups (l : list nat) : string :=
  match l with
  | a :: b :: c :: rest =>
      b64_digit (a / 4) ++ b64_digit ((a mod 4) * 16 + b / 16)
      ++ b64_digit ((b mod 16) * 4 + c / 64) ++ b64_digit (c mod 64) ++ b64_groups rest
  | [a; b] =>
      b64_digit (a / 4) ++ b64_digit ((a mod 4) * 16 + b / 16)
      ++ b64_digit ((b mod 16) * 4) ++ "="
  | [a] => b64_digit (a / 4) ++ b64_digit ((a mod 4) * 16) ++ "=="
  | [] => EmptyString
  end%nat.

Definition b64encode (data : string) : string :=
  b64_groups (map nat_of_ascii (list_ascii_of_string data)).

(** ** The file system of the serving process *)

(** Files by path (relative paths are in the server's working directory) and
    the set of existing directories. *)
Record fsys := mkFS { files : string -> option string; dirs : string -> bool }.

Definition fs_write (fs : fsys) (p d : string) : fsys :=
  mkFS (fun q => if String.eqb q p then Some d else files fs q) (dirs fs).

Definition fs_writes (fs : fsys) (ws : list (string * string)) : fsys :=
  fold_left (fun fs' '(p, d) => fs_write fs' p d) ws fs.

(** ** The interpreter and operating system seen by [run_code_and_capture_output] *)

(** What the child process [python temp_code.py] does with a given script. *)
Record child_run := mkChild {
  ch_duration : option nat;             (* seconds until exit; [None]: never exits *)
  ch_stdout : string;
  ch_stderr : string;
  ch_writes : list (string * string)    (* files it writes in the working directory *)
}.

(** Column labels: pandas accepts any hashable value as a label. *)
Inductive col_label :=
| LStr (s : string)        (* str, numpy.str_ *)
| LBytes (b : string)      (* bytes: it has [lower], and no bytes value equals a str *)
| LNonStr (r : string).    (* int, float, tuple, Timestamp, ...: no [lower] method *)

(** Python's [==] between labels, as far as the code compares them: only a str
    label equals a str. *)
Definition col_label_eqb (a b : col_label) : bool :=
  match a, b with
  | LStr x, LStr y => String.eqb x y
  | LBytes x, LBytes y => String.eqb x y
  | LNonStr x, LNonStr y => String.eqb x y
  | _, _ => false
  end.

(** [c.lower()]: [str.lower] and [bytes.lower]; any other label raises
    [AttributeError].  For a str label, the ASCII [lower] decides a comparison
    with "film" or "title" as Python's does: a str lower-cases to one of these
    words exactly when it is one of their ASCII case variants. *)
Definition label_lower (c : col_label) : res col_label :=
  match c with
  | LStr s => Ret (LStr (lower s))
  | LBytes b => Ret (LBytes (lower b))
  | LNonStr _ => Raise (mkExc AttributeError "object has no attribute 'lower'")
  end.

(** [{c.lower(): c for c in df.columns}], as its (key, value) pairs in column order. *)
Fixpoint lower_keys (cols : list col_label) : res (list (col_label * col_label)) :=
  match cols with
  | [] => Ret []
  | c :: cs =>
      let! k := label_lower c in
      let! rest := lower_keys cs in
      Ret ((k, c) :: rest)
  end.

(** [cols_lower[key]]: a later pair with the same key overwrites an earlier one. *)
Fixpoint last_value (key : col_label) (kvs : list (col_label * col_label)) : option col_label :=
  match kvs with
  | [] => None
  | (k, v) :: rest =>
      match last_value key rest with
      | Some v' => Some v'
      | None => if col_label_eqb k key then Some v else None
      end
  end.

(** [df.rename(columns={old: new}, inplace=True)]: every column equal to [old]. *)
Definition rename_cols (old new : col_label) (cols : list col_label) : list col_label :=
  map (fun c => if col_label_eqb c old then new else c) cols.

(** [rename_film_column] (analyzer.py, lines 61-70) on the column labels. *)
Definition rename_film_column (cols : list col_label) : list col_label :=
  match lower_keys cols with
  | Raise _ => cols    (* lines 68-69: the [AttributeError] is printed, nothing renamed *)
  | Ret cols_lower =>
      match last_value (LStr "film") cols_lower with
      | Some c => rename_cols c (LStr "Title") cols
      | None =>
          match last_value (LStr "title") cols_lower with
          | Some c => rename_cols c (LStr "Film") cols
          | None => cols
          end
      end
  end.

(** Labels with a [lower] method, and str labels that lower-case to [key]. *)
Definition has_lower (c : col_label) : bool :=
  match c with LNonStr _ => false | _ => true end.

Definition lowers_to (key : string) (c : col_label) : bool :=
  match c with LStr s => String.eqb (lower s) key | _ => false end.

(** Values bound by the in-process [exec]: a DataFrame is seen through its
    column labels. *)
Inductive local_value :=
| LDataFrame (columns : list col_label)
| LOther.

(** What [exec(code, {"pd": pd, "plt": plt}, local_vars)] does. *)
Record exec_run := mkExec {
  ex_result : res (list local_value);   (* the values of [local_vars], or the exception *)
  ex_writes : list (string * string)
}.

Record interp := mkInterp {
  write_error : string -> string -> option exc;  (* open(path, "w").write(data) failing *)
  spawn_error : option exc;                      (* subprocess.run failing to start python *)
  child : string -> child_run;
  in_process : string -> exec_run;
  read_error : string -> option exc;             (* open(path, "rb").read() failing *)
  savefig : res string                           (* plt.savefig(buf, format="png") *)
}.

Definition subprocess_timeout : nat := 60.

Definition timed_out (r : child_run) : bool :=
  match ch_duration r with
  | None => true
  | Some d => Nat.ltb subprocess_timeout d
  end.

(** Lines 102-109: the DataFrame inspection pass; the renamed frames it
    produces are not used afterwards. *)
Definition repair_pass (ex : exec_run) : res (list (list col_label)) :=
  match ex_result ex with
  | Ret locals =>
      Ret (flat_map (fun v => match v with
                              | LDataFrame cols => [rename_film_column cols]
                              | LOther => []
                              end) locals)
  | Raise e => if is_Exception (cls e) then Ret [] else Raise e
  end.

(** [save_plot_as_base64] (lines 73-83). *)
Definition save_plot_as_base64 (I : interp) : res (option string) :=
  match savefig I with
  | Ret png => Ret (Some (b64encode png))
  | Raise e => if is_Exception (cls e) then Ret None else Raise e
  end.

Definition scatterplot_path : string := "scatterplot.png".

(** Lines 112-120: image capture. *)
Definition capture_image (I : interp) (fs : fsys) : res (option string) :=
  let attempt :=
    match files fs scatterplot_path with
    | Some data =>
        match read_error I scatterplot_path with
        | Some e => Raise e
        | None => Ret (Some (b64encode data))
        end
    | None => save_plot_as_base64 I
    end in
  match attempt with
  | Raise e => if is_Exception (cls e) then Ret None else Raise e
  | ok => ok
  end.

Definition temp_code_path : string := "temp_code.py".

Definition no_output_msg : string := "✅ Code executed, but no textual output.".
Definition timeout_msg : string := "⏱️ Code execution timed out!".

Definition truthy (s : string) : bool := negb (String.eqb s "").

(** The body of the [try] of lines 94-125. *)
Definition run_body (I : interp) (fs : fsys) (code : string) : fsys * res (list block) :=
  match spawn_error I with
  | Some e => (fs, Raise e)
  | None =>
      let script := match files fs temp_code_path with Some s => s | None => "" end in
      let r := child I script in
      let fs1 := fs_writes fs (ch_writes r) in
      if timed_out r then (fs1, Raise (mkExc TimeoutExpired "timed out after 60 seconds"))
      else
        let output := ch_stdout r ++ ch_stderr r in
        let ex := in_process I code in
        let fs2 := fs_writes fs1 (ex_writes ex) in
        match repair_pass ex with
        | Raise e => (fs2, Raise e)
        | Ret _ =>
            match capture_image I fs2 with
            | Raise e => (fs2, Raise e)
            | Ret image_base64 =>
                let text := if truthy (strip output) then strip output else no_output_msg in
                let img := match image_base64 with
                           | Some b => if truthy b
                                       then [image_block ("data:image/png;base64," ++ b)]
                                       else []
                           | None => []
                           end in
                (fs2, Ret (text_block text :: img))
            end
        end
  end.

(** [run_code_and_capture_output] (analyzer.py, lines 86-132). *)
Definition run_code_and_capture_output (I : interp) (fs : fsys) (code : string)
  : fsys * res (list block) :=
  match write_error I temp_code_path code with
  | Some e =>
      if is_Exception (cls e)
      then (fs, Ret [text_block ("❌ Failed to write code file: " ++ emsg e)])
      else (fs, Raise e)
  | None =>
      let fs0 := fs_write fs temp_code_path code in
      match run_body I fs0 code with
      | (fs', Raise e) =>
          match cls e with
          | TimeoutExpired => (fs', Ret [text_block timeout_msg])
          | c => if is_Exception c
                 then (fs', Ret [text_block ("❌ Code execution failed: " ++ emsg e)])
                 else (fs', Raise e)
          end
      | ok => ok
      end
  end.

(** The end of [analyze] (lines 185-194): execute the selected code or fall back. *)
Definition analyze_tail (I : interp) (fs : fsys) (text_attr : option string)
  : fsys * res (list block) :=
  match select_code text_attr with
  | Some c => run_code_and_capture_output I fs c
  | None => (fs, Ret no_code_payload)
  end.

(** ** Dictionaries as association lists in insertion order *)

Fixpoint dict_get {A} (k : string) (d : list (string * A)) : option A :=
  match d with
  | [] => None
  | (k', v) :: d' => if String.eqb k k' then Some v else dict_get k d'
  end.

Definition dict_in {A} (k : string) (d : list (string * A)) : bool :=
  match dict_get k d with Some _ => true | None => false end.

(** [d[k] = v]: updated in place, or appended. *)
Fixpoint dict_set {A} (k : string) (v : A) (d : list (string * A)) : list (string * A) :=
  match d with
  | [] => [(k, v)]
  | (k', v') :: d' => if String.eqb k k' then (k', v) :: d' else (k', v') :: dict_set k v d'
  end.

Fixpoint dict_remove {A} (k : string) (d : list (string * A)) : list (string * A) :=
  match d with
  | [] => []
  | (k', v') :: d' => if String.eqb k k' then d' else (k', v') :: dict_remove k d'
  end.

(** ** The language-model call with its retry (analyze, lines 143-160) *)

Record tool_call := mkCall { tc_name : string; tc_args : string }.

(** Reading an attribute of an object: it is missing, its getter raises (the
    [text] accessor of a google.generativeai response raises [ValueError] when
    the response has no text part), or it has a value. *)
Inductive attr (A : Type) :=
| AttrMissing
| AttrRaises (e : exc)
| AttrValue (v : A).
Arguments AttrMissing {A}.
Arguments AttrRaises {A} e.
Arguments AttrValue {A} v.

(** A Gemini response: its [text] attribute (a str or [None]) and its
    [function_calls] attribute (a list or [None]). *)
Record response := mkResponse {
  r_text : attr (option string);
  r_function_calls : attr (option (list tool_call))
}.

(** [obj.name] *)
Definition get_attr {A} (a : attr A) : res A :=
  match a with
  | AttrMissing => Raise (mkExc AttributeError "object has no attribute")
  | AttrRaises e => Raise e
  | AttrValue v => Ret v
  end.

(** [hasattr(obj, name)]: [False] when the getter raises [AttributeError]; any
    other exception propagates. *)
Definition hasattr {A} (a : attr A) : res bool :=
  match get_attr a with
  | Ret _ => Ret true
  | Raise e => match cls e with AttributeError => Ret false | _ => Raise e end
  end.

(** [getattr(obj, name, default)] *)
Definition getattr_default {A} (a : attr A) (default : A) : res A :=
  match get_attr a with
  | Ret v => Ret v
  | Raise e => match cls e with AttributeError => Ret default | _ => Raise e end
  end.

(** [query_gemini(prompt, tools=tools)] at a given attempt returns a response or raises. *)
Definition gemini := nat -> string -> res response.

Definition retry_note : string :=
  nl ++ nl ++ "Your last tool call failed due to malformed parameters. Please retry with correctly formatted parameters.".

Definition failed_twice_payload : list block :=
  [text_block "⚠️ Gemini failed twice due to malformed tool parameters. No valid answer could be generated."].

Definition query_failed_payload (e : exc) : list block :=
  [text_block ("❌ Gemini query failed: " ++ emsg e)].

(** How the [for] loop is left. *)
Inductive loop_exit :=
| Break (r : response)
| Return (p : list block)
| Propagate (e : exc)
| Exhausted.

(** The loop [for attempt in range(2)], with the prompts sent, in order. *)
Fixpoint gemini_loop (query : gemini) (attempts : list nat) (prompt : string)
  : list string * loop_exit :=
  match attempts with
  | [] => ([], Exhausted)
  | attempt :: rest =>
      match query attempt prompt with
      | Ret r => ([prompt], Break r)
      | Raise e =>
          match cls e with
          | StopCandidateException =>
              if Nat.eqb attempt 0
              then let '(ps, x) := gemini_loop query rest (prompt ++ retry_note) in
                   (prompt :: ps, x)
              else ([prompt], Return failed_twice_payload)
          | c =>
              if is_Exception c
              then ([prompt], Return (query_failed_payload e))
              else ([prompt], Propagate e)
          end
      end
  end.

Definition call_gemini (query : gemini) (prompt : string) : list string * loop_exit :=
  gemini_loop query [0; 1] prompt.

(** ** Tool dispatch (analyze, lines 48-58 and 170-183) *)

Definition params := list (string * pyval).

Definition fixes (tool_name : string) : option (list (string * string)) :=
  if String.eqb tool_name "scrape_website" then Some [("file", "output_file")]
  else if String.eqb tool_name "get_relevant_data" then Some [("file", "file_name")]
  else None.

(** [sanitize_tool_params]; [params[correct] = params.pop(wrong)] pops first. *)
Definition sanitize_tool_params (tool_name : string) (ps : params) : params :=
  match fixes tool_name with
  | Some fx =>
      fold_left (fun ps '(wrong, correct) =>
                   if dict_in wrong ps && negb (dict_in correct ps)
                   then match dict_get wrong ps with
                        | Some v => dict_set correct v (dict_remove wrong ps)
                        | None => ps
                        end
                   else ps) fx ps
  | None => ps
  end.

Record tool_env := mkToolEnv {
  parse_args : string -> res params;          (* json.loads(tool_call.args) *)
  call_tool : string -> params -> res unit    (* the tool, called with [ps] as keyword arguments *)
}.

Inductive dispatch_event :=
| Dispatched (name : string) (ps : params)
| Ignored (name : string) (ps : params)
| Warned (name : string) (e : exc).

(** One iteration of the loop of lines 172-183. *)
Definition dispatch_one (T : tool_env) (tc : tool_call) : res dispatch_event :=
  let function_name := tc_name tc in
  let attempt :=
    let! ps := parse_args T (tc_args tc) in
    let ps := sanitize_tool_params function_name ps in
    if String.eqb function_name "scrape_website" then
      let! _ := call_tool T "scrape_website" ps in Ret (Dispatched function_name ps)
    else if String.eqb function_name "get_relevant_data" then
      let! _ := call_tool T "get_relevant_data" ps in Ret (Dispatched function_name ps)
    else Ret (Ignored function_name ps) in
  match attempt with
  | Raise e => if is_Exception (cls e) then Ret (Warned function_name e) else Raise e
  | ok => ok
  end.

Fixpoint dispatch_tool_calls (T : tool_env) (tcs : list tool_call) : res (list dispatch_event) :=
  match tcs with
  | [] => Ret []
  | tc :: rest =>
      let! ev := dispatch_one T tc in
      let! evs := dispatch_tool_calls T rest in
      Ret (ev :: evs)
  end.

(** ** The HTML extractor (tools/get_relevant_data.py) *)

Record html_env := mkHtmlEnv {
  read_text : string -> res string;                 (* open(file_name, encoding="utf-8").read() *)
  css_select : string -> string -> res (list string); (* soup.select(sel), each el.get_text(strip=True) *)
  read_html : string -> res (list string);          (* pd.read_html(html), each df.to_csv(index=False) *)
  table_texts : string -> list string;              (* soup.find_all("table"), get_text(" ", strip=True) *)
  page_text : string -> string                      (* soup.get_text(separator=" ", strip=True) *)
}.

Inductive extracted :=
| DataList (l : list string)
| DataText (s : string).

Fixpoint number_tables (i : nat) (tables : list string) : list string :=
  match tables with
  | [] => []
  | t :: ts => ("Table " ++ string_of_nat i ++ ": " ++ t) :: number_tables (S i) ts
  end.

(** [get_relevant_data(file_name, js_selector)], returning the value of [data]. *)
Definition get_relevant_data (H : html_env) (file_name : string) (js_selector : option string)
  : res extracted :=
  let! html := read_text H file_name in
  let by_selector :=
    match js_selector with
    | Some sel =>
        if truthy sel then
          match css_select H html sel with
          | Raise e => Some (Raise e)
          | Ret [] => None
          | Ret els => Some (Ret (DataList els))
          end
        else None
    | None => None
    end in
  match by_selector with
  | Some r => r
  | None =>
      let by_pandas :=
        match read_html H html with
        | Ret [] => None
        | Ret dfs => Some (Ret (DataList dfs))
        | Raise e => if is_Exception (cls e) then None else Some (Raise e)
        end in
      match by_pandas with
      | Some r => r
      | None =>
          match table_texts H html with
          | [] => Ret (DataText (page_text H html))
          | tables => Ret (DataList (number_tables 1 tables))
          end
      end
  end.

(** ** The scraper (tools/scrape_website.py) *)




(** ** Python call binding, for a function without defaults, [*args] or [**kwargs] *)

Definition mem (x : string) (l : list string) : bool := existsb (String.eqb x) l.

(** The [TypeError] raised when [f(<npos positional>, k1=..., ...)] does not fit
    the parameters [ps] of [f]; the checks are in CPython's order. *)
Definition bind_error (fname : string) (ps : list string) (npos : nat) (kws : list string)
  : option exc :=
  match find (fun k => negb (mem k ps)) kws with
  | Some k => Some (mkExc TypeError (fname ++ "() got an unexpected keyword argument '" ++ k ++ "'"))
  | None =>
      match find (fun k => mem k (firstn npos ps)) kws with
      | Some k => Some (mkExc TypeError (fname ++ "() got multiple values for argument '" ++ k ++ "'"))
      | None =>
          if Nat.ltb (length ps) npos
          then Some (mkExc TypeError (fname ++ "() takes " ++ string_of_nat (length ps)
                                      ++ " positional arguments but " ++ string_of_nat npos
                                      ++ " were given"))
          else match find (fun p => negb (mem p kws)) (skipn npos ps) with
               | Some p => Some (mkExc TypeError (fname ++ "() missing 1 required positional argument: '" ++ p ++ "'"))
               | None => None
               end
      end
  end.

(** The parameters of [analyze(questions_file, all_files)] (analyzer.py, line 135). *)
Definition analyze_params : list string := ["questions_file"; "all_files"].

(** ** The HTTP boundary (app.py, [root]) *)

Record upload := mkUpload { filename : string; upload_bytes : string }.

Inductive http_response := PlainTextResponse (status : nat) (body : json).

Record app_env := mkAppEnv {
  tmp_candidate : nat -> string;          (* tempfile's k-th random "/tmp/agent_..." name *)
  upload_write_ok : string -> bool;       (* open(target, "wb") succeeding *)
  decode_utf8 : string -> option string;  (* reading the bytes with encoding="utf-8" *)
  analyze_call : list string -> string -> res (pyval * string);
  app_str_repr : pyval -> string
}.

Definition TMP_MAX : nat := 10000.

Fixpoint mkdtemp_try (A : app_env) (fs : fsys) (k tries : nat) : fsys * res string :=
  match tries with
  | 0 => (fs, Raise (mkExc OSError "No usable temporary directory name found"))
  | S t =>
      let d := tmp_candidate A k in
      if dirs fs d then mkdtemp_try A fs (S k) t
      else (mkFS (files fs) (fun q => String.eqb q d || dirs fs q), Ret d)
  end.

(** [tempfile.mkdtemp(prefix="agent_")]: the first candidate that does not exist
    is created. *)
Definition mkdtemp (A : app_env) (fs : fsys) : fsys * res string := mkdtemp_try A fs 0 TMP_MAX.

Definition under (d p : string) : bool := starts_with (d ++ "/") p.

(** [shutil.rmtree(d, ignore_errors=True)]. *)
Definition rmtree (fs : fsys) (d : string) : fsys :=
  mkFS (fun p => if under d p then None else files fs p)
       (fun q => if String.eqb q d || under d q then false else dirs fs q).

Definition os_path_join (a b : string) : string :=
  if starts_with "/" b then b else a ++ "/" ++ b.

Definition is_questions_name (n : string) : bool :=
  String.eqb (lower n) "questions.txt" || String.eqb (lower n) "question.txt".

(** The upload loop (lines 52-58): the [saved] map and [questions_path]. *)
Fixpoint save_uploads (A : app_env) (fs : fsys) (workdir : string) (ups : list upload)
  (saved : list (string * string)) (questions_path : option string)
  : fsys * res (list (string * string) * option string) :=
  match ups with
  | [] => (fs, Ret (saved, questions_path))
  | uf :: rest =>
      let target := os_path_join workdir (filename uf) in
      if upload_write_ok A target then
        save_uploads A (fs_write fs target (upload_bytes uf)) workdir rest
          (dict_set (filename uf) target saved)
          (if is_questions_name (filename uf) then Some target else questions_path)
      else (fs, Raise (mkExc OSError ("cannot open " ++ target)))
  end.

Definition missing_questions_body : json := JObj [("error", JStr "questions.txt is required")].

(** The body of the [try] of lines 48-89. *)
Definition root_body (A : app_env) (fs : fsys) (workdir : string) (ups : list upload)
  : fsys * res http_response :=
  match save_uploads A fs workdir ups [] None with
  | (fs1, Raise e) => (fs1, Raise e)
  | (fs1, Ret (saved, None)) => (fs1, Ret (PlainTextResponse 400 missing_questions_body))
  | (fs1, Ret (saved, Some questions_path)) =>
      match option_map (decode_utf8 A) (files fs1 questions_path) with
      | None | Some None => (fs1, Raise (mkExc UnicodeError "cannot read questions"))
      | Some (Some questions_text) =>
          let file_paths := map snd (filter (fun '(n, _) => negb (is_questions_name n)) saved) in
          (* analyze(file_paths, questions_text, return_code=True) *)
          match bind_error "analyze" analyze_params 2 ["return_code"] with
          | Some e => (fs1, Raise e)
          | None =>
              match analyze_call A file_paths questions_text with
              | Raise e => (fs1, Raise e)
              | Ret (results, generated_code) =>
                  let fs2 := fs_write fs1 temp_code_path generated_code in
                  match results with
                  | PDict _ =>
                      match json_dumps (app_str_repr A) results with
                      | Some j => (fs2, Ret (PlainTextResponse 200 j))
                      | None => (fs2, Raise (mkExc ValueError "not serializable"))
                      end
                  | _ => (fs2, Raise (mkExc AttributeError "results has no attribute get"))
                  end
              end
          end
      end
  end.

(** [root] (app.py, lines 40-94): [mkdtemp] before the [try], [rmtree] in [finally]. *)
Definition root (A : app_env) (fs : fsys) (ups : list upload) : fsys * res http_response :=
  match mkdtemp A fs with
  | (fs1, Raise e) => (fs1, Raise e)
  | (fs1, Ret workdir) =>
      let '(fs2, r) := root_body A fs1 workdir ups in
      (rmtree fs2 workdir, r)
  end.

(** Only exceptions caught by [except Exception] are raised. *)
Definition exc_ok {A} (r : res A) : Prop :=
  match r with Raise e => is_Exception (cls e) = true | Ret _ => True end.

Definition opt_exc_ok (o : option exc) : Prop :=
  match o with Some e => is_Exception (cls e) = true | None => True end.

Definition captured_text (r : child_run) : string :=
  let output := ch_stdout r ++ ch_stderr r in
  if truthy (strip output) then strip output else no_output_msg.

(** ** Concrete runs, used by the witnesses and counterexamples *)

Definition empty_fs : fsys := mkFS (fun _ => None) (fun _ => false).

Definition sysexit_program : string :=
  "import sys" ++ nl ++ "print(42)" ++ nl ++ "sys.exit(0)".

(** CPython on a few programs: [sysexit_program] prints 42 and exits with status
    0 as a child process, and raises [SystemExit(0)] under [exec]; a program
    calling [time.sleep(600)] is still running when the 60 seconds are over. *)
Definition sleep_program : string := "import time" ++ nl ++ "time.sleep(600)".

Definition cpython : interp :=
  mkInterp
    (fun _ _ => None)
    None
    (fun src =>
       if String.eqb src sysexit_program then mkChild (Some 1) ("42" ++ nl) "" []
       else if String.eqb src sleep_program then mkChild (Some 600) "" "" []
       else mkChild (Some 1) "" "" [])
    (fun src =>
       if String.eqb src sysexit_program then mkExec (Raise (mkExc SystemExit "0")) []
       else mkExec (Ret []) [])
    (fun _ => None)
    (Ret "PNG").

(** A backend whose first answer is the malformed-tool-call signal. *)
Definition demo_response : response := mkResponse (AttrValue (Some "print(1)")) AttrMissing.

Definition malformed_then_ok : gemini :=
  fun attempt _ =>
    if Nat.eqb attempt 0 then Raise (mkExc StopCandidateException "MALFORMED_FUNCTION_CALL")
    else Ret demo_response.

(** Tool calls whose arguments parse as [{"url": ..., "file": ...}], where the
    scraper fails. *)
Definition demo_tools : tool_env :=
  mkToolEnv
    (fun a => if String.eqb a "bad" then Raise (mkExc ValueError "Expecting value")
              else Ret [("url", PStr a); ("file", PStr "page.html")])
    (fun n _ => if String.eqb n "scrape_website" then Raise (mkExc RuntimeError "no browser")
                else Ret tt).

(** Exceptions raised by the tool plumbing are [Exception]s. *)
Definition tool_env_ok (T : tool_env) : Prop :=
  (forall a, exc_ok (parse_args T a)) /\ (forall n ps, exc_ok (call_tool T n ps)).


(** A page without tables: [pd.read_html] raises [ValueError("No tables found")]. *)
Definition html_plain_page : html_env :=
  mkHtmlEnv (fun _ => Ret "<p>hi</p>") (fun _ _ => Ret [])
            (fun _ => Raise (mkExc ValueError "No tables found")) (fun _ => []) (fun _ => "hi").



(** A program that saves its figure as [scatterplot.png], and one that only prints. *)
Definition plot_program : string :=
  "import matplotlib.pyplot as plt" ++ nl ++ "plt.plot([1, 2])" ++ nl ++ "plt.savefig('scatterplot.png')".

Definition print_program : string := "print('B')".

(** CPython on these programs: the plot is written both by the child and by the
    in-process [exec]; the current figure, when saved, is empty. *)
Definition plotting_cpython : interp :=
  mkInterp
    (fun _ _ => None)
    None
    (fun src =>
       if String.eqb src plot_program then mkChild (Some 2) "" "" [(scatterplot_path, "PNGA")]
       else if String.eqb src print_program then mkChild (Some 1) ("B" ++ nl) "" []
       else mkChild (Some 1) "" "" [])
    (fun src =>
       if String.eqb src plot_program then mkExec (Ret [LOther]) [(scatterplot_path, "PNGA")]
       else mkExec (Ret []) [])
    (fun _ => None)
    (Ret "").

(** A server whose file operations all succeed and whose [analyze] would answer. *)
Definition demo_app : app_env :=
  mkAppEnv (fun k => "/tmp/agent_" ++ string_of_nat k) (fun _ => true) (fun b => Some b)
           (fun _ _ => Ret (PDict [], "")) (fun _ => "").

Definition demo_request : list upload :=
  [mkUpload "questions.txt" "What is the mean of x?"; mkUpload "data.csv" ("x" ++ nl ++ "1")].

Definition analyze_kw_error : exc :=
  mkExc TypeError "analyze() got an unexpected keyword argument 'return_code'".

(** ** [analyze] as a whole (analyzer.py, lines 135-195) *)

(** The two tools as [analyze] calls them, with the parameters as keyword
    arguments: a call may write files before it returns or raises. *)
Record tool_io := mkToolIO {
  io_parse_args : string -> res params;                        (* json.loads(tool_call.args) *)
  io_call_tool : fsys -> string -> params -> fsys * res unit
}.

(** One iteration of the loop of lines 172-183, with the files the tool writes. *)
Definition dispatch_one_io (T : tool_io) (fs : fsys) (tc : tool_call)
  : fsys * res dispatch_event :=
  let function_name := tc_name tc in
  let attempt : fsys * res dispatch_event :=
    match io_parse_args T (tc_args tc) with
    | Raise e => (fs, Raise e)
    | Ret ps =>
        let ps := sanitize_tool_params function_name ps in
        if String.eqb function_name "scrape_website" then
          let '(fs1, r) := io_call_tool T fs "scrape_website" ps in
          (fs1, let! _ := r in Ret (Dispatched function_name ps))
        else if String.eqb function_name "get_relevant_data" then
          let '(fs1, r) := io_call_tool T fs "get_relevant_data" ps in
          (fs1, let! _ := r in Ret (Dispatched function_name ps))
        else (fs, Ret (Ignored function_name ps))
    end in
  match attempt with
  | (fs1, Raise e) =>
      if is_Exception (cls e) then (fs1, Ret (Warned function_name e)) else (fs1, Raise e)
  | ok => ok
  end.

Fixpoint dispatch_tool_calls_io (T : tool_io) (fs : fsys) (tcs : list tool_call)
  : fsys * res (list dispatch_event) :=
  match tcs with
  | [] => (fs, Ret [])
  | tc :: rest =>
      match dispatch_one_io T fs tc with
      | (fs1, Raise e) => (fs1, Raise e)
      | (fs1, Ret ev) =>
          match dispatch_tool_calls_io T fs1 rest with
          | (fs2, Raise e) => (fs2, Raise e)
          | (fs2, Ret evs) => (fs2, Ret (ev :: evs))
          end
      end
  end.

Record analyze_env := mkAnalyzeEnv {
  read_questions : string -> res string;  (* open(questions_file, encoding="utf-8").read() *)
  query_gemini : gemini;
  response_str : response -> string;      (* str(response) *)
  dump_text : option string -> string;    (* what json.dump({"text": t}, f, indent=2) writes *)
  tools_io : tool_io;
  an_interp : interp
}.

Definition gpt_response_path : string := "gpt_response.json".

Definition read_failed_payload (e : exc) : list block :=
  [text_block ("❌ Failed to read questions file: " ++ emsg e)].

(** Leaving the retry loop without [response] bound. *)
Definition unbound_response : exc :=
  mkExc NameError "cannot access local variable 'response' where it is not associated with a value".

(** [for tool_call in None] *)
Definition none_not_iterable : exc := mkExc TypeError "'NoneType' object is not iterable".

(** Lines 163-168: save the response text; failures are only logged. *)
Definition save_response (E : analyze_env) (fs : fsys) (response : response) : res fsys :=
  match getattr_default (r_text response) (Some (response_str E response)) with
  | Raise e => if is_Exception (cls e) then Ret fs else Raise e
  | Ret response_text =>
      let data := dump_text E response_text in
      match write_error (an_interp E) gpt_response_path data with
      | None => Ret (fs_write fs gpt_response_path data)
      | Some e => if is_Exception (cls e) then Ret fs else Raise e
      end
  end.

(** Lines 171-183: the tool calls; only the loop body is inside a [try]. *)
Definition handle_tool_calls (E : analyze_env) (fs : fsys) (response : response)
  : fsys * res unit :=
  match hasattr (r_function_calls response) with
  | Raise e => (fs, Raise e)
  | Ret false => (fs, Ret tt)
  | Ret true =>
      match get_attr (r_function_calls response) with
      | Raise e => (fs, Raise e)
      | Ret None => (fs, Raise none_not_iterable)
      | Ret (Some tcs) =>
          let '(fs1, r) := dispatch_tool_calls_io (tools_io E) fs tcs in
          (fs1, let! _ := r in Ret tt)
      end
  end.

(** Lines 185-195, outside any [try]: run the returned code or fall back. *)
Definition run_returned_code (E : analyze_env) (fs : fsys) (response : response)
  : fsys * res (list block) :=
  match hasattr (r_text response) with
  | Raise e => (fs, Raise e)
  | Ret false => analyze_tail (an_interp E) fs None
  | Ret true =>
      match get_attr (r_text response) with
      | Raise e => (fs, Raise e)
      | Ret full_text =>
          (* full_text = response.text or "" *)
          analyze_tail (an_interp E) fs
            (Some (match full_text with Some t => t | None => EmptyString end))
      end
  end.

(** [analyze(questions_file, all_files)]; [all_files] is not used by the body. *)
Definition analyze (E : analyze_env) (fs : fsys) (questions_file : string)
  (all_files : list (string * string)) : fsys * res (list block) :=
  match read_questions E questions_file with
  | Raise e => if is_Exception (cls e) then (fs, Ret (read_failed_payload e)) else (fs, Raise e)
  | Ret prompt =>
      match snd (call_gemini (query_gemini E) prompt) with
      | Return p => (fs, Ret p)
      | Propagate e => (fs, Raise e)
      | Exhausted => (fs, Raise unbound_response)
      | Break response =>
          match save_response E fs response with
          | Raise e => (fs, Raise e)
          | Ret fs1 =>
              match handle_tool_calls E fs1 response with
              | (fs2, Raise e) => (fs2, Raise e)
              | (fs2, Ret _) => run_returned_code E fs2 response
              end
          end
      end
  end.

(** A model answer with a fenced program, after a malformed first call, and a
    tool call whose arguments do not parse. *)
Definition fenced_response : response :=
  mkResponse (AttrValue (Some ("Here it is:" ++ nl ++ "```python" ++ nl ++ print_program ++ nl ++ "```")))
             (AttrValue (Some [mkCall "scrape_website" "bad"])).

Definition demo_analyze_env : analyze_env :=
  mkAnalyzeEnv (fun _ => Ret "Print B.")
               (fun attempt _ =>
                  if Nat.eqb attempt 0
                  then Raise (mkExc StopCandidateException "MALFORMED_FUNCTION_CALL")
                  else Ret fenced_response)
               (fun _ => "<response>") (fun t => match t with Some t => t | None => "null" end)
               (mkToolIO (fun a => if String.eqb a "bad" then Raise (mkExc ValueError "Expecting value")
                                   else Ret [])
                         (fun fs _ _ => (fs, Ret tt)))
               plotting_cpython.





(** The attribute reads of [analyze] that do not raise, except with
    [AttributeError], and a [function_calls] that is not [None]. *)
Definition attr_ok {A} (a : attr A) : Prop :=
  match a with AttrRaises e => cls e = AttributeError | _ => True end.

Definition response_ok (r : response) : Prop :=
  attr_ok (r_text r) /\ attr_ok (r_function_calls r) /\ r_function_calls r <> AttrValue None.

(** * Properties *)

(** ** String lemmas *)

Lemma append_assoc_str (a b c : string) : (a ++ b) ++ c = a ++ (b ++ c).
Proof. induction a as [|x a IH]; simpl; [reflexivity | now rewrite IH]. Qed.

Lemma length_append_str (a b : string) :
  String.length (a ++ b) = String.length a + String.length b.
Proof. induction a as [|x a IH]; simpl; auto. Qed.


Lemma starts_with_app_l (p u v : string) :
  starts_with p (u ++ v) = true -> String.length p <= String.length u ->
  starts_with p u = true.
Proof.
  revert u; induction p as [|c p IH]; intros u H Hl; [reflexivity|].
  destruct u as [|d u]; simpl in *; [lia|].
  apply andb_prop in H as [H1 H2]. rewrite H1; simpl.
  apply IH; [assumption | lia].
Qed.

Lemma contains_cons_false (p : string) (c : ascii) (s : string) :
  contains p (String c s) = false -> starts_with p (String c s) = false /\ contains p s = false.
Proof. simpl. intros H. now apply orb_false_iff in H. Qed.

Lemma drop_app (p s : string) : drop (String.length p) (p ++ s) = s.
Proof. induction p; simpl; auto. Qed.

Lemma lazy_close_cons (c : ascii) (s : string) :
  lazy_close (String c s)
  = if starts_with fence_close (String c s) then Some EmptyString
    else option_map (String c) (lazy_close s).
Proof. reflexivity. Qed.

Lemma search_python_fence_cons (c : ascii) (s : string) :
  search_python_fence (String c s)
  = match (if starts_with fence_open (String c s) then lazy_close (drop 9 (String c s)) else None) with
    | Some body => Some body
    | None => search_python_fence s
    end.
Proof. reflexivity. Qed.

Lemma lazy_close_app (body post : string) :
  contains fence_close (body ++ "``") = false ->
  lazy_close (body ++ fence_close ++ post) = Some body.
Proof.
  induction body as [|c b IH]; intros H.
  - reflexivity.
  - change (String c b ++ "``") with (String c (b ++ "``")) in H.
    apply contains_cons_false in H as [H1 H2].
    change (String c b ++ fence_close ++ post) with (String c (b ++ fence_close ++ post)).
    rewrite lazy_close_cons.
    destruct (starts_with fence_close (String c (b ++ fence_close ++ post))) eqn:E.
    + exfalso.
      assert (Heq : String c (b ++ fence_close ++ post)
                    = String c (b ++ "``") ++ ("`" ++ post)).
      { change (String c (b ++ fence_close ++ post) = String c ((b ++ "``") ++ "`" ++ post)).
        rewrite append_assoc_str. reflexivity. }
      rewrite Heq in E.
      apply starts_with_app_l in E; [congruence|].
      change (3 <= S (String.length (b ++ "``"))). rewrite length_append_str. simpl. lia.
    + now rewrite (IH H2).
Qed.

Lemma search_python_fence_app (pre body post : string) :
  contains fence_open (pre ++ "```pytho") = false ->
  contains fence_close (body ++ "``") = false ->
  search_python_fence (pre ++ fence_open ++ body ++ fence_close ++ post) = Some body.
Proof.
  intros Hb Hc. induction pre as [|c pre IH].
  - change (search_python_fence (fence_open ++ body ++ fence_close ++ post) = Some body).
    transitivity (match lazy_close (body ++ fence_close ++ post) with
                  | Some b => Some b
                  | None => search_python_fence ("``python" ++ body ++ fence_close ++ post)
                  end); [reflexivity|].
    now rewrite (lazy_close_app body post Hc).
  - change (String c pre ++ "```pytho") with (String c (pre ++ "```pytho")) in Hb.
    apply contains_cons_false in Hb as [H1 H2].
    change (String c pre ++ fence_open ++ body ++ fence_close ++ post)
      with (String c (pre ++ fence_open ++ body ++ fence_close ++ post)).
    rewrite search_python_fence_cons.
    destruct (starts_with fence_open (String c (pre ++ fence_open ++ body ++ fence_close ++ post))) eqn:E.
    + exfalso.
      assert (Heq : String c (pre ++ fence_open ++ body ++ fence_close ++ post)
                    = String c (pre ++ "```pytho") ++ ("n" ++ body ++ fence_close ++ post)).
      { change (String c (pre ++ fence_open ++ body ++ fence_close ++ post)
                = String c ((pre ++ "```pytho") ++ "n" ++ body ++ fence_close ++ post)).
        rewrite append_assoc_str. reflexivity. }
      rewrite Heq in E.
      apply starts_with_app_l in E; [congruence|].
      change (9 <= S (String.length (pre ++ "```pytho"))). rewrite length_append_str. simpl. lia.
    + now rewrite (IH H2).
Qed.

(** ** C1 *)

(** C1 (counterexample): the fallback test is a substring test, not a test for an
    import statement or a definition keyword.  A response without any fenced
    block whose only "import" is inside the word "important" is executed as a
    program, while a response whose [def] keyword is followed by a tab is not. *)
Lemma C1_substring_fallback :
  search_python_fence "It is important." = None /\
  spec_has_keyword "It is important." = false /\
  select_code (Some "It is important.") = Some "It is important." /\
  search_python_fence ("def" ++ String (ascii_of_nat 9) "f(): pass") = None /\
  spec_has_keyword ("def" ++ String (ascii_of_nat 9) "f(): pass") = true /\
  select_code (Some ("def" ++ String (ascii_of_nat 9) "f(): pass")) = None.
Proof. vm_compute. repeat split. Qed.

(** C1 (amended): the first block opened by "```python" and closed by the next
    "```" is executed with its contents stripped; when the search finds no such
    block, the whole stripped response is executed if and only if it contains the
    substring "import" or "def "; otherwise, and when the response has no text,
    [analyze] returns the fallback text block. *)
Theorem C1_code_extraction :
  (forall I fs pre body post,
      contains fence_open (pre ++ "```pytho") = false ->
      contains fence_close (body ++ "``") = false ->
      analyze_tail I fs (Some (pre ++ fence_open ++ body ++ fence_close ++ post))
      = run_code_and_capture_output I fs (strip body)) /\
  (forall I fs t,
      search_python_fence t = None ->
      contains "import" t || contains "def " t = true ->
      analyze_tail I fs (Some t) = run_code_and_capture_output I fs (strip t)) /\
  (forall t,
      search_python_fence t = None ->
      (select_code (Some t) <> None <-> contains "import" t || contains "def " t = true)) /\
  (forall I fs t,
      search_python_fence t = None ->
      contains "import" t || contains "def " t = false ->
      analyze_tail I fs (Some t) = (fs, Ret no_code_payload)) /\
  (forall I fs, analyze_tail I fs None = (fs, Ret no_code_payload)).
Proof.
  repeat split.
  - intros I fs pre body post H1 H2. unfold analyze_tail, select_code.
    now rewrite (search_python_fence_app pre body post H1 H2).
  - intros I fs t H1 H2. unfold analyze_tail, select_code. now rewrite H1, H2.
  - intros Hn. unfold select_code in Hn. rewrite H in Hn.
    destruct (contains "import" t || contains "def " t); [reflexivity | now contradiction].
  - intros Hk. unfold select_code. rewrite H, Hk. discriminate.
  - intros I fs t H1 H2. unfold analyze_tail, select_code. now rewrite H1, H2.
Qed.

(** C1 witness. *)
Lemma C1_code_extraction_witness :
  contains fence_open ("Here: " ++ "```pytho") = false /\
  contains fence_close (" print(1) " ++ "``") = false /\
  analyze_tail cpython empty_fs (Some ("Here: " ++ fence_open ++ " print(1) " ++ fence_close ++ " done"))
  = run_code_and_capture_output cpython empty_fs "print(1)".
Proof.
  split; [vm_compute; reflexivity|]. split; [vm_compute; reflexivity|].
  apply (proj1 C1_code_extraction); vm_compute; reflexivity.
Defined.

(** ** C2 *)

Lemma fs_write_same (fs : fsys) (p d : string) : files (fs_write fs p d) p = Some d.
Proof. simpl. now rewrite String.eqb_refl. Qed.

(** C2: when the script was written and the child process started but did not
    finish within the 60-second budget, [run_code_and_capture_output] returns the
    fixed one-block payload "⏱️ Code execution timed out!" instead of raising;
    the payload serialises to JSON and differs from the payloads of the other
    failures. *)
Theorem C2_timeout_payload (I : interp) (fs : fsys) (code : string) :
  write_error I temp_code_path code = None ->
  spawn_error I = None ->
  timed_out (child I code) = true ->
  snd (run_code_and_capture_output I fs code) = Ret [text_block timeout_msg] /\
  (forall str_repr, json_dumps str_repr (payload_to_py [text_block timeout_msg])
                    = Some (JArr [block_to_json (text_block timeout_msg)])) /\
  (forall e, text_block timeout_msg <> text_block ("❌ Code execution failed: " ++ emsg e)) /\
  (forall e, text_block timeout_msg <> text_block ("❌ Failed to write code file: " ++ emsg e)).
Proof.
  intros Hw Hs Ht. split; [|split; [|split]].
  - unfold run_code_and_capture_output. rewrite Hw.
    unfold run_body. rewrite Hs, fs_write_same, Ht. reflexivity.
  - intros str_repr. reflexivity.
  - intros e H. inversion H.
  - intros e H. inversion H.
Qed.

(** C2 witness: a program sleeping 600 seconds. *)
Lemma C2_timeout_payload_witness :
  write_error cpython temp_code_path sleep_program = None /\
  spawn_error cpython = None /\
  timed_out (child cpython sleep_program) = true /\
  snd (run_code_and_capture_output cpython empty_fs sleep_program) = Ret [text_block timeout_msg].
Proof.
  split; [reflexivity|]. split; [reflexivity|]. split; [vm_compute; reflexivity|].
  apply (C2_timeout_payload cpython empty_fs sleep_program); vm_compute; reflexivity.
Defined.

(** ** C4 *)

(** C4 (failing input): [sys.exit(0)] in the generated program.  The child process
    exits normally, but the in-process inspection pass raises [SystemExit], which
    is not an [Exception]: neither [except Exception] of lines 108 and 129 catches
    it and [run_code_and_capture_output] raises. *)
Theorem C4_systemexit_escapes :
  snd (run_code_and_capture_output cpython empty_fs sysexit_program)
  = Raise (mkExc SystemExit "0").
Proof. vm_compute. reflexivity. Qed.

Lemma capture_image_ok (I : interp) (fs : fsys) :
  exc_ok (savefig I) -> opt_exc_ok (read_error I scatterplot_path) ->
  exists img, capture_image I fs = Ret img.
Proof.
  intros Hs Hr. unfold capture_image, save_plot_as_base64.
  destruct (files fs scatterplot_path).
  - destruct (read_error I scatterplot_path) as [e|]; simpl in Hr; [rewrite Hr|]; eauto.
  - destruct (savefig I) as [png|e]; simpl in Hs; [|rewrite Hs]; eauto.
Qed.

Lemma repair_pass_ok (ex : exec_run) :
  exc_ok (ex_result ex) -> exists frames, repair_pass ex = Ret frames.
Proof.
  intros H. unfold repair_pass. destruct (ex_result ex) as [l|e]; simpl in H.
  - eauto.
  - rewrite H. eauto.
Qed.

(** When the child process finished in time and the failures of the inspection
    pass and of the image capture are [Exception]s, the payload starts with the
    captured text: a failing repair pass leaves it unchanged. *)
Lemma run_code_text_after_repair (I : interp) (fs : fsys) (code : string) :
  write_error I temp_code_path code = None ->
  spawn_error I = None ->
  timed_out (child I code) = false ->
  exc_ok (ex_result (in_process I code)) ->
  exc_ok (savefig I) -> opt_exc_ok (read_error I scatterplot_path) ->
  exists bs, snd (run_code_and_capture_output I fs code)
             = Ret (text_block (captured_text (child I code)) :: bs).
Proof.
  intros Hw Hs Ht He Hf Hr.
  unfold run_code_and_capture_output. rewrite Hw. unfold run_body.
  rewrite Hs, fs_write_same, Ht.
  destruct (repair_pass_ok (in_process I code) He) as [fr Hfr]. rewrite Hfr.
  destruct (capture_image_ok I (fs_writes (fs_writes (fs_write fs temp_code_path code)
              (ch_writes (child I code))) (ex_writes (in_process I code))) Hf Hr) as [img Himg].
  rewrite Himg. simpl. eexists. reflexivity.
Qed.

(** Every way [run_code_and_capture_output] can end, when all exceptions raised
    below it are [Exception]s: a non-empty list whose first block is a text block. *)
Lemma run_body_ok (I : interp) (fs : fsys) (code : string) :
  opt_exc_ok (spawn_error I) ->
  exc_ok (ex_result (in_process I code)) ->
  exc_ok (savefig I) -> opt_exc_ok (read_error I scatterplot_path) ->
  match snd (run_body I fs code) with
  | Ret l => exists b bs, l = b :: bs /\ btype b = "text"
  | Raise e => cls e = TimeoutExpired \/ is_Exception (cls e) = true
  end.
Proof.
  intros Hs He Hf Hr. unfold run_body.
  destruct (spawn_error I) as [e|]; simpl in Hs; [simpl; now right|].
  destruct (timed_out _); [simpl; now left|].
  destruct (repair_pass_ok (in_process I code) He) as [fr Hfr]. rewrite Hfr.
  match goal with |- context [capture_image I ?f] =>
    destruct (capture_image_ok I f Hf Hr) as [img Himg]; rewrite Himg end.
  simpl. eauto.
Qed.

Lemma run_code_text_first (I : interp) (fs : fsys) (code : string) :
  opt_exc_ok (write_error I temp_code_path code) ->
  opt_exc_ok (spawn_error I) ->
  exc_ok (ex_result (in_process I code)) ->
  exc_ok (savefig I) -> opt_exc_ok (read_error I scatterplot_path) ->
  exists b bs, snd (run_code_and_capture_output I fs code) = Ret (b :: bs) /\ btype b = "text".
Proof.
  intros Hw Hs He Hf Hr. unfold run_code_and_capture_output.
  destruct (write_error I temp_code_path code) as [e|]; simpl in Hw.
  - rewrite Hw. simpl. eauto.
  - pose proof (run_body_ok I (fs_write fs temp_code_path code) code Hs He Hf Hr) as H.
    destruct (run_body I (fs_write fs temp_code_path code) code) as [fs' [l|e]]; simpl in H |- *.
    + destruct H as (b & bs & -> & Hb). eauto.
    + destruct H as [Hc|Hc]; [rewrite Hc; simpl; eauto|].
      destruct (cls e); simpl in Hc |- *; try discriminate; eauto.
Qed.

(** ** C3 *)

(** C3: the language model is called at most twice.  The malformed-tool-call
    signal ([StopCandidateException]) on the first call triggers exactly one more
    call, with the retry note appended to the prompt; the signal on the second
    call ends [analyze] with the "failed twice" payload; any other [Exception]
    from a call ends it at once with a "query failed" payload; the loop is never
    left without a response or a payload. *)
Theorem C3_malformed_call_retry (query : gemini) (prompt : string) :
  (length (fst (call_gemini query prompt)) <= 2)%nat /\
  snd (call_gemini query prompt) <> Exhausted /\
  (forall r, query 0 prompt = Ret r -> call_gemini query prompt = ([prompt], Break r)) /\
  (forall e, query 0 prompt = Raise e -> cls e <> StopCandidateException ->
             is_Exception (cls e) = true ->
             call_gemini query prompt = ([prompt], Return (query_failed_payload e))) /\
  (forall e, query 0 prompt = Raise e -> cls e = StopCandidateException ->
     fst (call_gemini query prompt) = [prompt; prompt ++ retry_note] /\
     (forall r, query 1 (prompt ++ retry_note) = Ret r ->
                snd (call_gemini query prompt) = Break r) /\
     (forall e', query 1 (prompt ++ retry_note) = Raise e' -> cls e' = StopCandidateException ->
                 snd (call_gemini query prompt) = Return failed_twice_payload) /\
     (forall e', query 1 (prompt ++ retry_note) = Raise e' -> cls e' <> StopCandidateException ->
                 is_Exception (cls e') = true ->
                 snd (call_gemini query prompt) = Return (query_failed_payload e'))).
Proof.
  unfold call_gemini.
  split; [|split; [|split; [|split]]].
  - simpl. destruct (query 0 prompt) as [r|e]; simpl; [lia|].
    destruct (cls e); simpl; try (destruct (is_Exception _)); simpl; try lia.
    destruct (query 1 _) as [r1|e1]; simpl; [lia|].
    destruct (cls e1); simpl; try (destruct (is_Exception _)); simpl; lia.
  - simpl. destruct (query 0 prompt) as [r|e]; simpl; [discriminate|].
    destruct (cls e); simpl; try (destruct (is_Exception _)); simpl; try discriminate.
    destruct (query 1 _) as [r1|e1]; simpl; [discriminate|].
    destruct (cls e1); simpl; try (destruct (is_Exception _)); simpl; discriminate.
  - intros r H. simpl. now rewrite H.
  - intros e H Hc Hx. simpl. rewrite H.
    destruct (cls e) eqn:C; simpl in Hx |- *; try congruence; reflexivity.
  - intros e H Hc. simpl. rewrite H, Hc. simpl.
    split; [|split; [|split]].
    + destruct (query 1 (prompt ++ retry_note)) as [r|e']; simpl; [reflexivity|].
      destruct (cls e'); simpl; try (destruct (is_Exception _)); reflexivity.
    + intros r H1. now rewrite H1.
    + intros e' H1 C1. now rewrite H1, C1.
    + intros e' H1 C1 X1. rewrite H1.
      destruct (cls e') eqn:C; simpl in X1 |- *; try congruence; reflexivity.
Qed.

(** C3 witness: a backend whose first answer is the malformed-call signal. *)
Lemma C3_malformed_call_retry_witness :
  malformed_then_ok 0 "q" = Raise (mkExc StopCandidateException "MALFORMED_FUNCTION_CALL") /\
  fst (call_gemini malformed_then_ok "q") = ["q"; "q" ++ retry_note] /\
  snd (call_gemini malformed_then_ok "q") = Break demo_response.
Proof.
  destruct (proj2 (proj2 (proj2 (proj2 (C3_malformed_call_retry malformed_then_ok "q"))))
              (mkExc StopCandidateException "MALFORMED_FUNCTION_CALL") eq_refl eq_refl)
    as [Hp [Hok _]].
  split; [reflexivity|]. split; [exact Hp|]. apply Hok. reflexivity.
Defined.

(** ** C6 *)

Section Dicts.
Context {A : Type}.

Lemma dict_get_set_same (k : string) (v : A) (d : list (string * A)) :
  dict_get k (dict_set k v d) = Some v.
Proof.
  induction d as [|[k' v'] d IH]; simpl.
  - now rewrite String.eqb_refl.
  - destruct (String.eqb k k') eqn:E; simpl.
    + apply String.eqb_eq in E. subst. now rewrite String.eqb_refl.
    + now rewrite E.
Qed.

Lemma dict_get_set_other (k k' : string) (v : A) (d : list (string * A)) :
  k' <> k -> dict_get k' (dict_set k v d) = dict_get k' d.
Proof.
  intros Hne. induction d as [|[k0 v0] d IH]; simpl.
  - apply String.eqb_neq in Hne. now rewrite Hne.
  - destruct (String.eqb k k0) eqn:E; simpl.
    + apply String.eqb_eq in E. subst. apply String.eqb_neq in Hne. now rewrite Hne.
    + now rewrite IH.
Qed.

Lemma dict_get_not_in (k : string) (d : list (string * A)) :
  ~ In k (map fst d) -> dict_get k d = None.
Proof.
  induction d as [|[k0 v0] d IH]; simpl; intros H; [reflexivity|].
  destruct (String.eqb k k0) eqn:E.
  - apply String.eqb_eq in E. subst. tauto.
  - apply IH. tauto.
Qed.

Lemma dict_get_remove_same (k : string) (d : list (string * A)) :
  NoDup (map fst d) -> dict_get k (dict_remove k d) = None.
Proof.
  induction d as [|[k0 v0] d IH]; simpl; intros Hnd; [reflexivity|].
  inversion Hnd as [|? ? Hnin Hnd']; subst.
  destruct (String.eqb k k0) eqn:E.
  - apply String.eqb_eq in E. subst. now apply dict_get_not_in.
  - simpl. rewrite E. now apply IH.
Qed.

Lemma dict_get_remove_other (k k' : string) (d : list (string * A)) :
  k' <> k -> dict_get k' (dict_remove k d) = dict_get k' d.
Proof.
  intros Hne. induction d as [|[k0 v0] d IH]; simpl; [reflexivity|].
  destruct (String.eqb k k0) eqn:E.
  - apply String.eqb_eq in E. subst. apply String.eqb_neq in Hne. now rewrite Hne.
  - simpl. now rewrite IH.
Qed.
End Dicts.

Lemma sanitize_renames (tool wrong correct : string) (ps : params) (v : pyval) :
  fixes tool = Some [(wrong, correct)] -> wrong <> correct ->
  NoDup (map fst ps) -> dict_get wrong ps = Some v -> dict_get correct ps = None ->
  dict_get correct (sanitize_tool_params tool ps) = Some v /\
  dict_get wrong (sanitize_tool_params tool ps) = None.
Proof.
  intros Hf Hne Hnd Hw Hc. unfold sanitize_tool_params. rewrite Hf. simpl.
  unfold dict_in. rewrite Hw, Hc. simpl. split.
  - apply dict_get_set_same.
  - rewrite dict_get_set_other by assumption. now apply dict_get_remove_same.
Qed.

Lemma sanitize_keeps (tool wrong correct : string) (ps : params) :
  fixes tool = Some [(wrong, correct)] -> dict_get correct ps <> None ->
  sanitize_tool_params tool ps = ps.
Proof.
  intros Hf Hc. unfold sanitize_tool_params. rewrite Hf. simpl.
  unfold dict_in. destruct (dict_get correct ps); [|congruence].
  now rewrite andb_false_r.
Qed.

Lemma dispatch_one_ok (T : tool_env) (tc : tool_call) :
  tool_env_ok T -> exists ev, dispatch_one T tc = Ret ev.
Proof.
  intros [Hp Hc]. unfold dispatch_one.
  destruct (parse_args T (tc_args tc)) as [ps|e] eqn:Ep; simpl.
  - destruct (String.eqb (tc_name tc) "scrape_website").
    + specialize (Hc "scrape_website" (sanitize_tool_params (tc_name tc) ps)).
      destruct (call_tool T "scrape_website" _) as [u|e]; simpl in *; [eauto|rewrite Hc; eauto].
    + destruct (String.eqb (tc_name tc) "get_relevant_data"); [|eauto].
      specialize (Hc "get_relevant_data" (sanitize_tool_params (tc_name tc) ps)).
      destruct (call_tool T "get_relevant_data" _) as [u|e]; simpl in *; [eauto|rewrite Hc; eauto].
  - specialize (Hp (tc_args tc)). rewrite Ep in Hp. simpl in Hp. rewrite Hp. eauto.
Qed.

(** C6: the key "file" is renamed to "output_file" for [scrape_website] and to
    "file_name" for [get_relevant_data] only when the correct key is absent, and
    the parameters of other tools are left alone; a call to an unknown tool is
    ignored; an [Exception] raised by a tool is logged as a warning; and the loop
    processes every call: each one's outcome is the outcome of that call alone. *)
Theorem C6_tool_dispatch :
  (forall ps v, NoDup (map fst ps) ->
     dict_get "file" ps = Some v -> dict_get "output_file" ps = None ->
     dict_get "output_file" (sanitize_tool_params "scrape_website" ps) = Some v /\
     dict_get "file" (sanitize_tool_params "scrape_website" ps) = None) /\
  (forall ps, dict_get "output_file" ps <> None ->
     sanitize_tool_params "scrape_website" ps = ps) /\
  (forall ps v, NoDup (map fst ps) ->
     dict_get "file" ps = Some v -> dict_get "file_name" ps = None ->
     dict_get "file_name" (sanitize_tool_params "get_relevant_data" ps) = Some v /\
     dict_get "file" (sanitize_tool_params "get_relevant_data" ps) = None) /\
  (forall ps, dict_get "file_name" ps <> None ->
     sanitize_tool_params "get_relevant_data" ps = ps) /\
  (forall name ps, name <> "scrape_website" -> name <> "get_relevant_data" ->
     sanitize_tool_params name ps = ps) /\
  (forall T tc ps, parse_args T (tc_args tc) = Ret ps ->
     tc_name tc <> "scrape_website" -> tc_name tc <> "get_relevant_data" ->
     dispatch_one T tc = Ret (Ignored (tc_name tc) ps)) /\
  (forall T tc ps e, parse_args T (tc_args tc) = Ret ps ->
     (tc_name tc = "scrape_website" \/ tc_name tc = "get_relevant_data") ->
     call_tool T (tc_name tc) (sanitize_tool_params (tc_name tc) ps) = Raise e ->
     is_Exception (cls e) = true ->
     dispatch_one T tc = Ret (Warned (tc_name tc) e)) /\
  (forall T tcs, tool_env_ok T ->
     exists evs, dispatch_tool_calls T tcs = Ret evs /\
                 Forall2 (fun tc ev => dispatch_one T tc = Ret ev) tcs evs).
Proof.
  split; [|split; [|split; [|split; [|split; [|split; [|split]]]]]].
  - intros ps v. apply sanitize_renames; [reflexivity | discriminate].
  - intros ps. apply (sanitize_keeps _ "file"). reflexivity.
  - intros ps v. apply sanitize_renames; [reflexivity | discriminate].
  - intros ps. apply (sanitize_keeps _ "file"). reflexivity.
  - intros name ps H1 H2. unfold sanitize_tool_params, fixes.
    apply String.eqb_neq in H1, H2. now rewrite H1, H2.
  - intros T tc ps Hp H1 H2. unfold dispatch_one. cbv zeta.
    apply String.eqb_neq in H1, H2. rewrite Hp, H1, H2.
    assert (Hs : sanitize_tool_params (tc_name tc) ps = ps)
      by (unfold sanitize_tool_params, fixes; now rewrite H1, H2).
    cbv beta iota delta [res_bind]. now rewrite Hs.
  - intros T tc ps e Hp Hn Hc He. unfold dispatch_one. cbv zeta. rewrite Hp.
    cbv beta iota delta [res_bind].
    destruct Hn as [Hn|Hn]; rewrite Hn in Hc |- *; rewrite String.eqb_refl;
      [|change (String.eqb "get_relevant_data" "scrape_website") with false; cbv iota];
      rewrite Hc; cbv iota; now rewrite He.
  - intros T tcs HT. induction tcs as [|tc tcs IH]; simpl.
    + exists []. split; constructor.
    + destruct (dispatch_one_ok T tc HT) as [ev Hev]. rewrite Hev. simpl.
      destruct IH as [evs [Hevs HF]]. rewrite Hevs. simpl.
      exists (ev :: evs). split; [reflexivity | now constructor].
Qed.

(** C6 witness: a scrape whose tool fails, a hallucinated tool, and a call whose
    arguments do not parse are all processed. *)
Lemma C6_tool_dispatch_witness :
  dict_get "output_file" (sanitize_tool_params "scrape_website"
                            [("url", PStr "u"); ("file", PStr "p.html")]) = Some (PStr "p.html") /\
  tool_env_ok demo_tools /\
  dispatch_tool_calls demo_tools
    [mkCall "scrape_website" "http://a"; mkCall "summarize" "http://b"; mkCall "get_relevant_data" "bad"]
  = Ret [Warned "scrape_website" (mkExc RuntimeError "no browser");
         Ignored "summarize" [("url", PStr "http://b"); ("file", PStr "page.html")];
         Warned "get_relevant_data" (mkExc ValueError "Expecting value")].
Proof.
  assert (HT : tool_env_ok demo_tools).
  { split.
    - intros a. unfold demo_tools; simpl. destruct (String.eqb a "bad"); simpl; reflexivity || exact I.
    - intros n ps. unfold demo_tools; simpl. destruct (String.eqb n "scrape_website"); simpl; reflexivity || exact I. }
  split.
  - apply (proj1 C6_tool_dispatch); [repeat constructor; simpl; intuition discriminate
                                   | reflexivity | reflexivity].
  - split; [exact HT|].
    destruct (proj2 (proj2 (proj2 (proj2 (proj2 (proj2 (proj2 C6_tool_dispatch))))))
                demo_tools [mkCall "scrape_website" "http://a"; mkCall "summarize" "http://b";
                            mkCall "get_relevant_data" "bad"] HT) as [evs [Hd _]].
    rewrite Hd. rewrite <- Hd. vm_compute. reflexivity.
Defined.

(** ** C7 *)




(** ** C8 *)




(** ** C9 *)

Section Traverse.
Context {A B : Type}.





End Traverse.





(** ** The request boundary: C5 and C10 *)


(** The [finally] clause: whatever the body did, the work directory and
    everything below it are gone. *)
Lemma root_cleans (A : app_env) (fs : fsys) (ups : list upload) (w : string) :
  snd (mkdtemp A fs) = Ret w ->
  dirs (fst (root A fs ups)) w = false /\
  (forall p, under w p = true -> files (fst (root A fs ups)) p = None).
Proof.
  intros H. unfold root. destruct (mkdtemp A fs) as [fs1 [w'|e]]; simpl in H; [|discriminate].
  injection H as ->. destruct (root_body A fs1 w ups) as [fs2 r]. simpl.
  rewrite String.eqb_refl. split; [reflexivity|]. intros p Hp. now rewrite Hp.
Qed.


Lemma bind_error_analyze :
  bind_error "analyze" analyze_params 2 ["return_code"] = Some analyze_kw_error.
Proof. reflexivity. Qed.

Lemma save_uploads_inv (A : app_env) (fs fs' : fsys) (w : string) (ups : list upload)
  (saved saved' : list (string * string)) (qp qp' : option string) :
  save_uploads A fs w ups saved qp = (fs', Ret (saved', qp')) ->
  (forall q, qp = Some q -> files fs q <> None) ->
  (forall q, qp' = Some q -> files fs' q <> None) /\
  (qp <> None \/ existsb (fun u => is_questions_name (filename u)) ups = true -> qp' <> None).
Proof.
  revert fs saved qp. induction ups as [|u ups IH]; intros fs saved qp H Hq.
  - cbn [save_uploads] in H. injection H as <- <- <-. split; [exact Hq|].
    intros [Hx|Hx]; [exact Hx|discriminate].
  - cbn [save_uploads] in H.
    destruct (upload_write_ok A (os_path_join w (filename u))); [|discriminate].
    assert (Hq' : forall q,
               (if is_questions_name (filename u) then Some (os_path_join w (filename u)) else qp)
               = Some q ->
               files (fs_write fs (os_path_join w (filename u)) (upload_bytes u)) q <> None).
    { intros q Hs. destruct (is_questions_name (filename u)).
      - injection Hs as <-. rewrite fs_write_same. discriminate.
      - simpl. destruct (String.eqb q (os_path_join w (filename u))); [discriminate|].
        exact (Hq q Hs). }
    destruct (IH _ _ _ H Hq') as [H1 H2]. split; [exact H1|].
    intros Hx. apply H2. cbn [existsb] in Hx.
    destruct (is_questions_name (filename u)); [left; discriminate|].
    exact Hx.
Qed.

Lemma save_uploads_ret (A : app_env) (fs : fsys) (w : string) (ups : list upload)
  (saved : list (string * string)) (qp : option string) :
  (forall t, upload_write_ok A t = true) ->
  exists fs' saved' qp', save_uploads A fs w ups saved qp = (fs', Ret (saved', qp')).
Proof.
  intros Hok. revert fs saved qp. induction ups as [|u ups IH]; intros fs saved qp.
  - do 3 eexists. reflexivity.
  - cbn [save_uploads]. rewrite Hok. apply IH.
Qed.

(** With a questions file among the uploads, the body of [root] always raises. *)
Lemma root_body_raises (A : app_env) (fs : fsys) (w : string) (ups : list upload) :
  existsb (fun u => is_questions_name (filename u)) ups = true ->
  exists e, snd (root_body A fs w ups) = Raise e.
Proof.
  intros Hq. unfold root_body.
  destruct (save_uploads A fs w ups [] None) as [fs1 [[saved qp]|e]] eqn:Es; [|simpl; eauto].
  destruct (save_uploads_inv _ _ _ _ _ _ _ _ _ Es) as [Hf Hqp]; [discriminate|].
  destruct qp as [q|]; [|exfalso; apply Hqp; [right; exact Hq | reflexivity]].
  rewrite bind_error_analyze.
  destruct (option_map (decode_utf8 A) (files fs1 q)) as [[t|]|]; simpl; eauto.
Qed.

(** ... and when the uploads are saved and the questions decode, it raises the
    [TypeError] of the call [analyze(file_paths, questions_text, return_code=True)]. *)
Lemma root_body_typeerror (A : app_env) (fs : fsys) (w : string) (ups : list upload) :
  existsb (fun u => is_questions_name (filename u)) ups = true ->
  (forall t, upload_write_ok A t = true) -> (forall b, decode_utf8 A b <> None) ->
  snd (root_body A fs w ups) = Raise analyze_kw_error.
Proof.
  intros Hq Hok Hdec. unfold root_body.
  destruct (save_uploads_ret A fs w ups [] None Hok) as (fs1 & saved & qp & Es). rewrite Es.
  destruct (save_uploads_inv _ _ _ _ _ _ _ _ _ Es) as [Hf Hqp]; [discriminate|].
  destruct qp as [q|]; [|exfalso; apply Hqp; [right; exact Hq | reflexivity]].
  rewrite bind_error_analyze.
  destruct (files fs1 q) as [b|] eqn:Eb; [|exfalso; exact (Hf q eq_refl Eb)].
  simpl. destruct (decode_utf8 A b) as [t|] eqn:Ed; [reflexivity|].
  exfalso. exact (Hdec b Ed).
Qed.




(** C10: for a request that uploads a questions file, [root] never returns a
    response: the call [analyze(file_paths, questions_text, return_code=True)]
    does not fit [analyze(questions_file, all_files)] and raises [TypeError]
    (or an earlier step has already raised), while the [finally] clause still
    removes the request's directory and everything below it. *)
Theorem C10_analyze_call_raises (A : app_env) (fs : fsys) (ups : list upload) :
  existsb (fun u => is_questions_name (filename u)) ups = true ->
  (forall resp, snd (root A fs ups) <> Ret resp) /\
  (forall w, snd (mkdtemp A fs) = Ret w ->
     dirs (fst (root A fs ups)) w = false /\
     (forall p, under w p = true -> files (fst (root A fs ups)) p = None)) /\
  (forall w, snd (mkdtemp A fs) = Ret w ->
     (forall t, upload_write_ok A t = true) -> (forall b, decode_utf8 A b <> None) ->
     snd (root A fs ups) = Raise analyze_kw_error).
Proof.
  intros Hq. split; [|split].
  - intros resp. unfold root. destruct (mkdtemp A fs) as [fs1 [w|e]]; [|discriminate].
    destruct (root_body_raises A fs1 w ups Hq) as [e He].
    destruct (root_body A fs1 w ups) as [fs2 r]. simpl in *. subst r. discriminate.
  - intros w H. exact (root_cleans A fs ups w H).
  - intros w H Hok Hdec. unfold root.
    destruct (mkdtemp A fs) as [fs1 [w'|e]]; simpl in H; [|discriminate].
    pose proof (root_body_typeerror A fs1 w' ups Hq Hok Hdec) as He.
    destruct (root_body A fs1 w' ups) as [fs2 r]. simpl in *. exact He.
Qed.

(** C10 witness: a request with questions.txt and a CSV file. *)
Lemma C10_analyze_call_raises_witness :
  snd (root demo_app empty_fs demo_request) = Raise analyze_kw_error /\
  dirs (fst (root demo_app empty_fs demo_request)) "/tmp/agent_0" = false.
Proof.
  destruct (C10_analyze_call_raises demo_app empty_fs demo_request eq_refl) as [_ [Hc Ht]].
  split.
  - apply (Ht "/tmp/agent_0"); [vm_compute; reflexivity | reflexivity | discriminate].
  - apply (Hc "/tmp/agent_0"). vm_compute. reflexivity.
Defined.

(** * Further properties of the code *)

(** ** [rename_film_column] *)

Lemma label_lower_key (key : string) (c k : col_label) :
  label_lower c = Ret k -> col_label_eqb k (LStr key) = lowers_to key c.
Proof. destruct c; simpl; intros H; inversion H; reflexivity. Qed.

Lemma lower_keys_total (cols : list col_label) :
  forallb has_lower cols = true -> exists kvs, lower_keys cols = Ret kvs.
Proof.
  induction cols as [|c cs IH]; simpl; [eauto|].
  intros H. apply andb_prop in H as [Hc Hcs].
  destruct (IH Hcs) as [kvs Hk].
  destruct c; simpl in Hc; try discriminate; cbn [label_lower res_bind]; rewrite Hk;
    cbn [res_bind]; eauto.
Qed.

Lemma lower_keys_raise (cols : list col_label) :
  existsb (fun c => negb (has_lower c)) cols = true -> exists e, lower_keys cols = Raise e.
Proof.
  induction cols as [|c cs IH]; simpl; [discriminate|].
  intros H. destruct c; simpl in H; cbn [label_lower res_bind]; [| |eauto];
    destruct (IH H) as [e ->]; cbn [res_bind]; eauto.
Qed.

Lemma lower_keys_none (key : string) (cols : list col_label) (kvs : list (col_label * col_label)) :
  lower_keys cols = Ret kvs -> Forall (fun x => lowers_to key x = false) cols ->
  last_value (LStr key) kvs = None.
Proof.
  intros Hk Hf. revert kvs Hk. induction Hf as [|c cs Hc _ IH]; intros kvs Hk.
  - simpl in Hk. inversion Hk. reflexivity.
  - simpl in Hk. destruct (label_lower c) as [k|e] eqn:Hl; [|discriminate].
    simpl in Hk. destruct (lower_keys cs) as [rest|e]; [|discriminate].
    inversion Hk. simpl. rewrite (IH rest eq_refl).
    rewrite (label_lower_key key c k Hl), Hc. reflexivity.
Qed.

Lemma lower_keys_last (key : string) (pre post : list col_label) (c : col_label)
  (kvs : list (col_label * col_label)) :
  lower_keys (pre ++ c :: post) = Ret kvs -> lowers_to key c = true ->
  Forall (fun x => lowers_to key x = false) post ->
  last_value (LStr key) kvs = Some c.
Proof.
  intros Hk Hc Hpost. revert kvs Hk. induction pre as [|x pre IH]; intros kvs Hk; simpl in Hk.
  - destruct (label_lower c) as [k|e] eqn:Hl; [|discriminate].
    simpl in Hk. destruct (lower_keys post) as [rest|e] eqn:Hr; [|discriminate].
    inversion Hk. simpl. rewrite (lower_keys_none key post rest Hr Hpost).
    rewrite (label_lower_key key c k Hl), Hc. reflexivity.
  - destruct (label_lower x) as [k|e]; [|discriminate].
    simpl in Hk. destruct (lower_keys (pre ++ c :: post)) as [rest|e]; [|discriminate].
    inversion Hk. simpl. rewrite (IH rest eq_refl). reflexivity.
Qed.

(** [rename_film_column] renames, among the str columns whose lower-cased label
    is "film", the last one to "Title" (the dict [cols_lower] keeps the last
    label per lower-cased key), and so every column carrying that same label;
    only when no label lower-cases to "film" does it rename the last "title"
    column to "Film"; without either it leaves the labels as they are.  All this
    needs every label to have a [lower] method: a single other label (an int, a
    tuple, ...) makes the dict comprehension raise, the warning is printed and no
    column is renamed. *)
Theorem rename_film_column_spec :
  (forall pre post s,
     forallb has_lower (pre ++ LStr s :: post) = true ->
     lower s = "film" -> Forall (fun x => lowers_to "film" x = false) post ->
     rename_film_column (pre ++ LStr s :: post)
     = rename_cols (LStr s) (LStr "Title") (pre ++ LStr s :: post)) /\
  (forall pre post s,
     forallb has_lower (pre ++ LStr s :: post) = true ->
     Forall (fun x => lowers_to "film" x = false) (pre ++ LStr s :: post) ->
     lower s = "title" -> Forall (fun x => lowers_to "title" x = false) post ->
     rename_film_column (pre ++ LStr s :: post)
     = rename_cols (LStr s) (LStr "Film") (pre ++ LStr s :: post)) /\
  (forall cols,
     Forall (fun x => lowers_to "film" x = false /\ lowers_to "title" x = false) cols ->
     rename_film_column cols = cols) /\
  (forall cols,
     existsb (fun c => negb (has_lower c)) cols = true ->
     rename_film_column cols = cols).
Proof.
  assert (Hls : forall s key, lower s = key -> lowers_to key (LStr s) = true)
    by (intros s0 key H; simpl; rewrite H; apply String.eqb_refl).
  split; [|split; [|split]].
  - intros pre post s Hh Hc Hp. unfold rename_film_column.
    destruct (lower_keys_total _ Hh) as [kvs Hk]. rewrite Hk.
    now rewrite (lower_keys_last _ _ _ _ _ Hk (Hls s _ Hc) Hp).
  - intros pre post s Hh Hf Hc Hp. unfold rename_film_column.
    destruct (lower_keys_total _ Hh) as [kvs Hk]. rewrite Hk.
    rewrite (lower_keys_none _ _ _ Hk Hf).
    now rewrite (lower_keys_last _ _ _ _ _ Hk (Hls s _ Hc) Hp).
  - intros cols H. unfold rename_film_column.
    destruct (lower_keys cols) as [kvs|e] eqn:Hk; [|reflexivity].
    rewrite (lower_keys_none "film" cols kvs Hk)
      by (eapply Forall_impl; [|exact H]; intros x [Hx _]; exact Hx).
    rewrite (lower_keys_none "title" cols kvs Hk)
      by (eapply Forall_impl; [|exact H]; intros x [_ Hx]; exact Hx).
    reflexivity.
  - intros cols H. unfold rename_film_column.
    destruct (lower_keys_raise cols H) as [e ->]. reflexivity.
Qed.

(** The last of two "film" columns is renamed; a year label of type int blocks
    every renaming. *)
Lemma rename_film_column_spec_witness :
  rename_film_column ([LStr "Film"; LStr "Year"] ++ LStr "FILM" :: [LStr "Gross"])
  = [LStr "Film"; LStr "Year"; LStr "Title"; LStr "Gross"] /\
  rename_film_column [LStr "Film"; LNonStr "2019"] = [LStr "Film"; LNonStr "2019"].
Proof.
  split.
  - rewrite (proj1 rename_film_column_spec [LStr "Film"; LStr "Year"] [LStr "Gross"] "FILM");
      [reflexivity | reflexivity | reflexivity | repeat constructor].
  - exact (proj2 (proj2 (proj2 rename_film_column_spec)) [LStr "Film"; LNonStr "2019"] eq_refl).
Defined.

(** ** [sanitize_tool_params] *)

Lemma sanitize_cases (tool w c : string) (ps : params) :
  fixes tool = Some [(w, c)] ->
  sanitize_tool_params tool ps = ps \/
  exists v, dict_get w ps = Some v /\ dict_get c ps = None /\
            sanitize_tool_params tool ps = dict_set c v (dict_remove w ps).
Proof.
  intros Hf. unfold sanitize_tool_params. rewrite Hf. simpl. unfold dict_in.
  destruct (dict_get w ps) as [v|] eqn:Ew; simpl; [|left; reflexivity].
  destruct (dict_get c ps) as [v'|] eqn:Ec; simpl; [left; reflexivity|].
  right. eauto.
Qed.

Lemma In_keys_dict_remove {A} (k x : string) (d : list (string * A)) :
  In x (map fst (dict_remove k d)) -> In x (map fst d).
Proof.
  induction d as [|[k' v'] d IH]; simpl; [tauto|].
  destruct (String.eqb k k'); simpl; tauto.
Qed.

Lemma NoDup_dict_remove {A} (k : string) (d : list (string * A)) :
  NoDup (map fst d) -> NoDup (map fst (dict_remove k d)).
Proof.
  induction d as [|[k' v'] d IH]; simpl; intros H; [constructor|].
  inversion H as [|? ? Hn Hd]; subst.
  destruct (String.eqb k k'); simpl; [exact Hd|].
  constructor; [|now apply IH]. intros Hin. apply Hn. eapply In_keys_dict_remove. exact Hin.
Qed.

Lemma In_keys_dict_set {A} (k x : string) (v : A) (d : list (string * A)) :
  In x (map fst (dict_set k v d)) -> x = k \/ In x (map fst d).
Proof.
  induction d as [|[k' v'] d IH]; simpl.
  - intros [H|[]]. left. now symmetry.
  - destruct (String.eqb k k'); simpl; [tauto|].
    intros [H|H]; [tauto|]. destruct (IH H); tauto.
Qed.

Lemma NoDup_dict_set {A} (k : string) (v : A) (d : list (string * A)) :
  NoDup (map fst d) -> NoDup (map fst (dict_set k v d)).
Proof.
  induction d as [|[k' v'] d IH]; simpl; intros H.
  - constructor; [intros []|constructor].
  - inversion H as [|? ? Hn Hd]; subst.
    destruct (String.eqb k k') eqn:E; simpl; [exact H|].
    constructor; [|now apply IH].
    intros Hin. destruct (In_keys_dict_set _ _ _ _ Hin) as [Hk|Hk]; [|contradiction].
    subst. now rewrite String.eqb_refl in E.
Qed.

(** Applying [sanitize_tool_params] a second time changes nothing, and a
    parameter dict with distinct keys keeps distinct keys. *)
Theorem sanitize_tool_params_idempotent (tool : string) (ps : params) :
  sanitize_tool_params tool (sanitize_tool_params tool ps) = sanitize_tool_params tool ps /\
  (NoDup (map fst ps) -> NoDup (map fst (sanitize_tool_params tool ps))).
Proof.
  destruct (fixes tool) as [fx|] eqn:Hf.
  2: { unfold sanitize_tool_params. rewrite Hf. auto. }
  assert (Hfx : exists w c, fx = [(w, c)]).
  { unfold fixes in Hf. destruct (String.eqb tool "scrape_website");
      [|destruct (String.eqb tool "get_relevant_data"); [|discriminate]];
      injection Hf as <-; eauto. }
  destruct Hfx as (w & c & ->).
  destruct (sanitize_cases tool w c ps Hf) as [Hs|(v & Hw & Hc & Hs)]; rewrite Hs.
  - rewrite Hs. auto.
  - split.
    + apply (sanitize_keeps _ w c). { exact Hf. }
      rewrite dict_get_set_same. discriminate.
    + intros Hnd. apply NoDup_dict_set, NoDup_dict_remove, Hnd.
Qed.

(** ** The payload of [run_code_and_capture_output] *)

Lemma run_body_shape (I : interp) (fs : fsys) (code : string) (l : list block) :
  snd (run_body I fs code) = Ret l ->
  exists t, l = [text_block t] \/
            exists b, truthy b = true /\ l = [text_block t; image_block ("data:image/png;base64," ++ b)].
Proof.
  unfold run_body. destruct (spawn_error I); [discriminate|]. cbv zeta.
  destruct (timed_out _); [discriminate|].
  destruct (repair_pass _); [|discriminate].
  destruct (capture_image _ _) as [img|]; [|discriminate].
  simpl. intros H. injection H as <-. eexists.
  destruct img as [b|]; [|left; reflexivity].
  destruct (truthy b) eqn:Eb; [right; eauto | left; reflexivity].
Qed.

(** Whatever happens, [run_code_and_capture_output] returns (when it returns)
    one text block, possibly followed by one image block whose output is a
    non-empty base64 string behind the "data:image/png;base64," prefix. *)
Theorem run_code_payload_shape (I : interp) (fs : fsys) (code : string) (l : list block) :
  snd (run_code_and_capture_output I fs code) = Ret l ->
  exists t, l = [text_block t] \/
            exists b, b <> "" /\ l = [text_block t; image_block ("data:image/png;base64," ++ b)].
Proof.
  intros H.
  assert (Hshape : exists t, l = [text_block t] \/
            exists b, truthy b = true /\ l = [text_block t; image_block ("data:image/png;base64," ++ b)]).
  { revert H. unfold run_code_and_capture_output.
    destruct (write_error I temp_code_path code) as [e|].
    - destruct (is_Exception (cls e)); simpl; intros H; [injection H as <-; eauto | discriminate].
    - destruct (run_body I (fs_write fs temp_code_path code) code) as [fs' [l'|e]] eqn:Eb.
      + simpl. intros H. injection H as <-. apply (run_body_shape I (fs_write fs temp_code_path code) code).
        now rewrite Eb.
      + destruct (cls e); simpl; try (destruct (is_Exception _)); simpl; intros H;
          try discriminate; injection H as <-; eauto. }
  destruct Hshape as [t [Ht|(b & Hb & Hl)]]; exists t; [now left|right].
  exists b. split; [|exact Hl]. unfold truthy in Hb.
  intros ->. discriminate.
Qed.

Lemma run_code_payload_shape_witness :
  exists t, [text_block "B"; image_block ("data:image/png;base64," ++ b64encode "PNGA")]
            = [text_block t] \/
            exists b, b <> "" /\
              [text_block "B"; image_block ("data:image/png;base64," ++ b64encode "PNGA")]
              = [text_block t; image_block ("data:image/png;base64," ++ b)].
Proof.
  apply (run_code_payload_shape plotting_cpython
           (fst (run_code_and_capture_output plotting_cpython empty_fs plot_program)) print_program).
  vm_compute. reflexivity.
Defined.

(** ** [get_relevant_data] *)

(** An empty selector, or one that matches no element, gives the same result as
    no selector at all. *)
Theorem get_relevant_data_selector_fallthrough (H : html_env) (file_name s : string) :
  (truthy s = false \/ forall html, read_text H file_name = Ret html -> css_select H html s = Ret []) ->
  get_relevant_data H file_name (Some s) = get_relevant_data H file_name None.
Proof.
  intros Hs. unfold get_relevant_data.
  destruct (read_text H file_name) as [html|e] eqn:Er; [|reflexivity].
  cbv beta iota delta [res_bind].
  destruct Hs as [Hs|Hs]; [now rewrite Hs|].
  destruct (truthy s); [|reflexivity]. now rewrite (Hs html eq_refl).
Qed.

Lemma get_relevant_data_selector_fallthrough_witness :
  get_relevant_data html_plain_page "page.html" (Some "") = Ret (DataText "hi").
Proof.
  rewrite (get_relevant_data_selector_fallthrough html_plain_page "page.html" "").
  - vm_compute. reflexivity.
  - left. reflexivity.
Defined.

(** The raw-table fallback labels the i-th table (from 0) "Table i+1: ",
    keeping every table and their order. *)
Theorem number_tables_nth (ts : list string) :
  length (number_tables 1 ts) = length ts /\
  forall i t, nth_error ts i = Some t ->
    nth_error (number_tables 1 ts) i = Some ("Table " ++ string_of_nat (S i) ++ ": " ++ t).
Proof.
  assert (Hgen : forall k ts, length (number_tables k ts) = length ts /\
            forall i t, nth_error ts i = Some t ->
              nth_error (number_tables k ts) i = Some ("Table " ++ string_of_nat (k + i) ++ ": " ++ t)).
  { intros k ts'. revert k. induction ts' as [|t0 ts' IH]; intros k; simpl.
    - split; [reflexivity|]. intros [|i] t H; discriminate.
    - destruct (IH (S k)) as [Hl Hn]. split; [now rewrite Hl|].
      intros [|i] t H; simpl in H |- *.
      + injection H as <-. now rewrite Nat.add_0_r.
      + rewrite (Hn i t H). now rewrite Nat.add_succ_r. }
  exact (Hgen 1 ts).
Qed.

Lemma number_tables_nth_witness :
  nth_error (number_tables 1 ["a"; "b"; "c"; "d"; "e"; "f"; "g"; "h"; "i"; "j"; "k"]) 10
  = Some "Table 11: k".
Proof.
  rewrite (proj2 (number_tables_nth ["a"; "b"; "c"; "d"; "e"; "f"; "g"; "h"; "i"; "j"; "k"]) 10 "k").
  - reflexivity.
  - reflexivity.
Defined.

(** ** [root]: uploads and the missing-questions answer *)

Lemma save_uploads_no_questions (A : app_env) (fs fs' : fsys) (w : string) (ups : list upload)
  (saved saved' : list (string * string)) (qp qp' : option string) :
  save_uploads A fs w ups saved qp = (fs', Ret (saved', qp')) ->
  existsb (fun u => is_questions_name (filename u)) ups = false -> qp' = qp.
Proof.
  revert fs saved qp. induction ups as [|u ups IH]; intros fs saved qp H Hq.
  - cbn [save_uploads] in H. now injection H as _ _ <-.
  - cbn [save_uploads] in H. cbn [existsb] in Hq. apply orb_false_iff in Hq as [Hu Hq].
    destruct (upload_write_ok A (os_path_join w (filename u))); [|discriminate].
    rewrite Hu in H. exact (IH _ _ _ H Hq).
Qed.

(** Without an upload named questions.txt or question.txt (in any case), and
    with the uploads saved, [root] answers 400 with the body
    {"error": "questions.txt is required"}, and the request's directory is gone. *)
Theorem root_missing_questions (A : app_env) (fs : fsys) (ups : list upload) (w : string) :
  snd (mkdtemp A fs) = Ret w ->
  (forall t, upload_write_ok A t = true) ->
  existsb (fun u => is_questions_name (filename u)) ups = false ->
  snd (root A fs ups) = Ret (PlainTextResponse 400 missing_questions_body) /\
  dirs (fst (root A fs ups)) w = false.
Proof.
  intros Hm Hok Hq. split; [|exact (proj1 (root_cleans A fs ups w Hm))].
  unfold root. destruct (mkdtemp A fs) as [fs1 [w'|e]]; simpl in Hm; [|discriminate].
  injection Hm as ->.
  assert (Hb : snd (root_body A fs1 w ups) = Ret (PlainTextResponse 400 missing_questions_body)).
  { unfold root_body.
    destruct (save_uploads_ret A fs1 w ups [] None Hok) as (fs2 & saved & qp & Es). rewrite Es.
    rewrite (save_uploads_no_questions _ _ _ _ _ _ _ _ _ Es Hq). reflexivity. }
  destruct (root_body A fs1 w ups) as [fs2 r]. simpl in *. exact Hb.
Qed.

Lemma root_missing_questions_witness :
  snd (root demo_app empty_fs [mkUpload "data.csv" "x"])
  = Ret (PlainTextResponse 400 missing_questions_body).
Proof.
  apply (proj1 (root_missing_questions demo_app empty_fs [mkUpload "data.csv" "x"] "/tmp/agent_0"
                  eq_refl (fun _ => eq_refl) eq_refl)).
Defined.






(** ** [analyze] *)

Lemma call_gemini_exit_ok (query : gemini) (prompt : string) :
  (forall n p, exc_ok (query n p)) ->
  match snd (call_gemini query prompt) with
  | Break _ => True
  | Return l => exists b bs, l = b :: bs /\ btype b = "text"
  | _ => False
  end.
Proof.
  intros Hq. unfold call_gemini. simpl.
  pose proof (Hq 0 prompt) as H0.
  destruct (query 0 prompt) as [r|e]; simpl in H0 |- *; [exact I|].
  destruct (cls e) eqn:C; simpl in H0 |- *; try discriminate;
    try (do 2 eexists; split; reflexivity).
  pose proof (Hq 1 (prompt ++ retry_note)) as H1.
  destruct (query 1 (prompt ++ retry_note)) as [r1|e1]; simpl in H1 |- *; [exact I|].
  destruct (cls e1); simpl in H1 |- *; try discriminate; do 2 eexists; split; reflexivity.
Qed.

Lemma dispatch_one_io_ok (T : tool_io) (fs : fsys) (tc : tool_call) :
  (forall a, exc_ok (io_parse_args T a)) ->
  (forall fs n ps, exc_ok (snd (io_call_tool T fs n ps))) ->
  exists fs' ev, dispatch_one_io T fs tc = (fs', Ret ev).
Proof.
  intros Hp Hc. unfold dispatch_one_io.
  pose proof (Hp (tc_args tc)) as Ha.
  destruct (io_parse_args T (tc_args tc)) as [ps|e]; simpl in Ha |- *.
  - destruct (String.eqb (tc_name tc) "scrape_website").
    + pose proof (Hc fs "scrape_website" (sanitize_tool_params (tc_name tc) ps)) as Ht.
      destruct (io_call_tool T fs "scrape_website" _) as [fs1 [u|e]]; simpl in Ht |- *;
        [eauto | rewrite Ht; eauto].
    + destruct (String.eqb (tc_name tc) "get_relevant_data"); [|eauto].
      pose proof (Hc fs "get_relevant_data" (sanitize_tool_params (tc_name tc) ps)) as Ht.
      destruct (io_call_tool T fs "get_relevant_data" _) as [fs1 [u|e]]; simpl in Ht |- *;
        [eauto | rewrite Ht; eauto].
  - rewrite Ha. eauto.
Qed.

Lemma dispatch_tool_calls_io_ok (T : tool_io) (fs : fsys) (tcs : list tool_call) :
  (forall a, exc_ok (io_parse_args T a)) ->
  (forall fs n ps, exc_ok (snd (io_call_tool T fs n ps))) ->
  exists fs' evs, dispatch_tool_calls_io T fs tcs = (fs', Ret evs).
Proof.
  intros Hp Hc. revert fs. induction tcs as [|tc tcs IH]; intros fs; simpl; [eauto|].
  destruct (dispatch_one_io_ok T fs tc Hp Hc) as (fs1 & ev & ->).
  destruct (IH fs1) as (fs2 & evs & ->). eauto.
Qed.

Lemma analyze_tail_ok (I : interp) (fs : fsys) (text_attr : option string) :
  (forall p d, opt_exc_ok (write_error I p d)) -> opt_exc_ok (spawn_error I) ->
  (forall code, exc_ok (ex_result (in_process I code))) ->
  exc_ok (savefig I) -> opt_exc_ok (read_error I scatterplot_path) ->
  exists b bs, snd (analyze_tail I fs text_attr) = Ret (b :: bs) /\ btype b = "text".
Proof.
  intros Hw Hs Hx Hf Hr. unfold analyze_tail.
  destruct (select_code text_attr) as [c|]; [|simpl; do 2 eexists; split; reflexivity].
  apply run_code_text_first; auto.
Qed.

Lemma call_gemini_break (query : gemini) (prompt : string) (r : response) :
  snd (call_gemini query prompt) = Break r -> exists n p, query n p = Ret r.
Proof.
  unfold call_gemini. simpl. intros H.
  destruct (query 0 prompt) as [r0|e] eqn:H0; simpl in H; [inversion H; subst; eauto|].
  destruct (cls e); simpl in H; try discriminate.
  destruct (query 1 (prompt ++ retry_note)) as [r1|e1] eqn:H1; simpl in H;
    [inversion H; subst; eauto|].
  destruct (cls e1); simpl in H; discriminate.
Qed.

Lemma save_response_ok (E : analyze_env) (fs : fsys) (r : response) :
  attr_ok (r_text r) -> (forall p d, opt_exc_ok (write_error (an_interp E) p d)) ->
  exists fs1, save_response E fs r = Ret fs1.
Proof.
  intros Ht Hw. unfold save_response.
  destruct (getattr_default (r_text r) (Some (response_str E r))) as [t|e] eqn:Hg.
  - pose proof (Hw gpt_response_path (dump_text E t)) as H.
    destruct (write_error (an_interp E) gpt_response_path (dump_text E t)) as [e|];
      simpl in H |- *; [rewrite H|]; eexists; reflexivity.
  - exfalso. unfold getattr_default in Hg.
    destruct (r_text r) as [|e'|v]; simpl in Hg, Ht; try discriminate.
    rewrite Ht in Hg. discriminate.
Qed.

Lemma handle_tool_calls_ok (E : analyze_env) (fs : fsys) (r : response) :
  attr_ok (r_function_calls r) -> r_function_calls r <> AttrValue None ->
  (forall a, exc_ok (io_parse_args (tools_io E) a)) ->
  (forall fs n ps, exc_ok (snd (io_call_tool (tools_io E) fs n ps))) ->
  exists fs2 u, handle_tool_calls E fs r = (fs2, Ret u).
Proof.
  intros Ha Hn Hp Hc. unfold handle_tool_calls.
  destruct (r_function_calls r) as [|e|[tcs|]]; simpl in Ha; unfold hasattr, get_attr.
  - cbn. do 2 eexists; reflexivity.
  - rewrite Ha. do 2 eexists; reflexivity.
  - destruct (dispatch_tool_calls_io_ok (tools_io E) fs tcs Hp Hc) as (fs2 & evs & ->).
    cbn. do 2 eexists; reflexivity.
  - contradiction.
Qed.

Lemma run_returned_code_ok (E : analyze_env) (fs : fsys) (r : response) :
  attr_ok (r_text r) ->
  (forall p d, opt_exc_ok (write_error (an_interp E) p d)) ->
  opt_exc_ok (spawn_error (an_interp E)) ->
  (forall code, exc_ok (ex_result (in_process (an_interp E) code))) ->
  exc_ok (savefig (an_interp E)) -> opt_exc_ok (read_error (an_interp E) scatterplot_path) ->
  exists b bs, snd (run_returned_code E fs r) = Ret (b :: bs) /\ btype b = "text".
Proof.
  intros Ht Hw Hs Hx Hf Hr. unfold run_returned_code.
  destruct (r_text r) as [|e|v]; simpl in Ht.
  - apply analyze_tail_ok; auto.
  - unfold hasattr; simpl. rewrite Ht. apply analyze_tail_ok; auto.
  - apply analyze_tail_ok; auto.
Qed.

(** When every failure on the way is an [Exception] (reading the questions, the
    model calls, the file writes, the tools, the child process, the in-process
    pass and the image capture), and every response the model returns has
    [text] and [function_calls] attributes that are absent or read without
    raising, with a [function_calls] that is not [None], then [analyze] returns a
    non-empty list of blocks whose first block is a text block; it never raises. *)
Theorem analyze_returns_text_first (E : analyze_env) (fs : fsys) (questions_file : string)
  (all_files : list (string * string)) :
  exc_ok (read_questions E questions_file) ->
  (forall n p, exc_ok (query_gemini E n p)) ->
  (forall n p r, query_gemini E n p = Ret r -> response_ok r) ->
  (forall a, exc_ok (io_parse_args (tools_io E) a)) ->
  (forall fs n ps, exc_ok (snd (io_call_tool (tools_io E) fs n ps))) ->
  (forall p d, opt_exc_ok (write_error (an_interp E) p d)) ->
  opt_exc_ok (spawn_error (an_interp E)) ->
  (forall code, exc_ok (ex_result (in_process (an_interp E) code))) ->
  exc_ok (savefig (an_interp E)) -> opt_exc_ok (read_error (an_interp E) scatterplot_path) ->
  exists b bs, snd (analyze E fs questions_file all_files) = Ret (b :: bs) /\ btype b = "text".
Proof.
  intros Hq Hg Hok Hp Hc Hw Hs Hx Hf Hr. unfold analyze.
  destruct (read_questions E questions_file) as [prompt|e]; simpl in Hq.
  2: { rewrite Hq. simpl. do 2 eexists; split; reflexivity. }
  pose proof (call_gemini_exit_ok (query_gemini E) prompt Hg) as Hexit.
  pose proof (call_gemini_break (query_gemini E) prompt) as Hbreak.
  destruct (snd (call_gemini (query_gemini E) prompt)) as [r|l|e|]; try contradiction.
  2: { destruct Hexit as (b & bs & -> & Hb). simpl. eauto. }
  destruct (Hbreak r eq_refl) as (n & p & Hqr).
  destruct (Hok n p r Hqr) as (Ht & Hfc & Hnn).
  destruct (save_response_ok E fs r Ht Hw) as [fs1 ->].
  destruct (handle_tool_calls_ok E fs1 r Hfc Hnn Hp Hc) as (fs2 & u & ->).
  apply run_returned_code_ok; auto.
Qed.

Lemma analyze_returns_text_first_witness :
  exists b bs, snd (analyze demo_analyze_env empty_fs "questions.txt" []) = Ret (b :: bs) /\
               btype b = "text".
Proof.
  apply analyze_returns_text_first.
  - exact I.
  - intros n p. simpl. destruct (Nat.eqb n 0); reflexivity || exact I.
  - intros n p r H. simpl in H. destruct (Nat.eqb n 0); [discriminate|].
    inversion H; subst. split; [exact I|split; [exact I|discriminate]].
  - intros a. simpl. destruct (String.eqb a "bad"); reflexivity || exact I.
  - intros fs n ps. exact I.
  - intros p d. exact I.
  - exact I.
  - intros code. simpl. destruct (String.eqb code plot_program); exact I.
  - exact I.
  - exact I.
Defined.


